(** * The LXC / chroot aware SSH connection plugin

  A shallow embedding of [connection/ssh-outoftheway.py]: the class
  [Connection], a subclass of the SSH connection plugin, which rewrites
  commands and file paths so that they reach an LXC container or a chroot
  on a physical host.

  Strings are Python 2 byte strings ([string], a list of [ascii]); [None]
  is the [None] of [option].  The methods run in a small state and
  exception monad whose state holds the connection object, the environment
  the inherited transport acts on, and the trace of everything the plugin
  hands to its collaborators (the display and the inherited methods). *)

From Stdlib Require Import ZArith String Ascii List Bool.
From stdpp Require Import base option gmap strings.
Import ListNotations.

Local Open Scope string_scope.
Local Open Scope Z_scope.

(** ** Python strings *)

Module PyStr.

(** The double quote character, and the one-character string it makes. *)
Definition dquote_char : ascii := "034"%char.
Definition dquote : string := String dquote_char EmptyString.

Definition squote_char : ascii := "039"%char.

(** [os.sep] on the platforms the plugin targets. *)
Definition sep : ascii := "/"%char.

(** ['%s' % v] for a value that is a string or [None]. *)
Definition fmt_s (v : option string) : string :=
  match v with
  | Some s => s
  | None => "None"
  end.

(** [s.startswith(c)] and [s.endswith(c)] for a one-character [c]. *)
Definition startswith (c : ascii) (s : string) : bool :=
  match s with
  | String a _ => Ascii.eqb a c
  | EmptyString => false
  end.

Fixpoint endswith (c : ascii) (s : string) : bool :=
  match s with
  | EmptyString => false
  | String a EmptyString => Ascii.eqb a c
  | String _ rest => endswith c rest
  end.

(** [s.lstrip(chars)]: drop leading characters while [p] holds. *)
Fixpoint lstrip_by (p : ascii -> bool) (s : string) : string :=
  match s with
  | String a rest => if p a then lstrip_by p rest else s
  | EmptyString => EmptyString
  end.

(** [s.rstrip(chars)]: drop trailing characters while [p] holds. *)
Fixpoint rstrip_by (p : ascii -> bool) (s : string) : string :=
  match s with
  | String a rest =>
      match rstrip_by p rest with
      | EmptyString => if p a then EmptyString else String a EmptyString
      | rest' => String a rest'
      end
  | EmptyString => EmptyString
  end.

(** The whitespace of a Python 2 byte string: space, tab, newline,
    carriage return, vertical tab and form feed. *)
Definition is_space (c : ascii) : bool :=
  let n := nat_of_ascii c in
  (Nat.eqb n 32 || (Nat.leb 9 n && Nat.leb n 13))%bool.

(** [s.strip()] *)
Definition strip (s : string) : string := rstrip_by is_space (lstrip_by is_space s).

(** [s.lstrip(os.sep)] *)
Definition lstrip_sep (s : string) : string := lstrip_by (fun a => Ascii.eqb a sep) s.

(** [s.replace(c, by)] for a one-character [c]. *)
Fixpoint replace_char (c : ascii) (by_ : string) (s : string) : string :=
  match s with
  | String a rest =>
      if Ascii.eqb a c then by_ ++ replace_char c by_ rest
      else String a (replace_char c by_ rest)
  | EmptyString => EmptyString
  end.

Fixpoint all_chars (p : ascii -> bool) (s : string) : bool :=
  match s with
  | String a rest => p a && all_chars p rest
  | EmptyString => true
  end.

(** [posixpath.join(a, b)] *)
Definition path_join (a b : string) : string :=
  if startswith sep b then b
  else if (String.eqb a "" || endswith sep a)%bool then a ++ b
  else a ++ "/" ++ b.

(** The characters [shlex_quote] leaves alone: letters, digits and
    [@%_-+=:,./]. *)
Definition safe_char (c : ascii) : bool :=
  let n := nat_of_ascii c in
  ((Nat.leb 97 n && Nat.leb n 122) || (Nat.leb 65 n && Nat.leb n 90)
   || (Nat.leb 48 n && Nat.leb n 57)
   || existsb (Ascii.eqb c)
        ["@"; "%"; "_"; "-"; "+"; "="; ":"; ","; "."; "/"]%char)%bool.

(** [shlex_quote], the shell escaping the plugin takes from the SSH module
    (the standard library's [pipes.quote]): the empty string becomes two
    single quotes, a string of safe characters is itself, and any other is
    put in single quotes, each single quote inside it written as
    quote, double-quoted quote, quote. *)
Definition shlex_quote (s : string) : string :=
  if String.eqb s "" then "''"
  else if all_chars safe_char s then s
  else
    let q := "'" ++ dquote ++ "'" ++ dquote ++ "'" in
    "'" ++ replace_char squote_char q s ++ "'".

(** [needle in hay] *)
Definition contains (needle hay : string) : Prop :=
  exists pre post : string, hay = pre ++ needle ++ post.

(** The newline character as a string. *)
Definition nl : string := String "010"%char EmptyString.

End PyStr.

Import PyStr.

(** ** The objects the plugin works on *)

(** The play context.  The attributes the plugin probes with [hasattr] are
  set dynamically (through vars), so they live in a dictionary: a key that
  is absent is an attribute that does not exist. *)
Record PlayContext := {
attrs : gmap string (option string);
remote_user : option string;
remote_addr : option string;
}.

(** The fields of a [Connection] object that the plugin reads or writes. *)
Record Connection := {
_play_context : PlayContext;
host : option string;
chroot_path : option string;
container_name : option string;
physical_host : option string;
container_type : option string;
}.

(** The host variables handed to [set_host_overrides]: a dictionary whose
  entry [physical_host_addrs] is itself a dictionary of addresses. *)
Abbreviation HostVars := (gmap string (gmap string string)).

Inductive Exn :=
| AnsibleError (msg : string)
| AttributeError (msg : string)
| TransportError (msg : string).

Inductive Res (A : Type) :=
| Ok (a : A)
| Raise (e : Exn).
Arguments Ok {A} a.
Arguments Raise {A} e.

(** What a command run by the transport gives back:
  [(returncode, stdout, stderr)]. *)
Abbreviation CmdResult := (Z * string * string)%type.

(** Everything the plugin hands to a collaborator, in order: a message for
  [SSH.display.vvv], or a call of an inherited method. *)
Inductive Event :=
| Vvv (msg : string)
| Run (argv : list string) (in_data : option string) (sudoable : bool)
| SuperExecCommand (cmd : string) (in_data : option string) (sudoable : bool)
| SuperFetchFile (in_path out_path : string)
| SuperPutFile (in_path out_path : string).

(** The inherited class [SSH.Connection], as far as the plugin uses it.
  [Env] is whatever the transport acts on (the network, the remote
  machines); every inherited method may raise. *)
Class SSHConnection (Env : Type) := {
(** the [host] the inherited constructor stores *)
super_init : PlayContext -> option string;
_build_command : Connection -> string -> list (option string) -> list string;
_run : Connection -> list string -> option string -> bool ->
       Env -> Res CmdResult * Env;
super_exec_command : Connection -> string -> option string -> bool ->
                     Env -> Res CmdResult * Env;
super_fetch_file : Connection -> string -> string -> Env -> Res unit * Env;
super_put_file : Connection -> string -> string -> Env -> Res unit * Env;
}.

(** ** The method monad *)

Section Plugin.

Context {Env : Type} {ssh : SSHConnection Env}.

Record St := {
  self : Connection;
  env : Env;
  trace : list Event;
}.

Definition M (A : Type) : Type := St -> Res A * St.

Definition ret {A} (a : A) : M A := fun st => (Ok a, st).

Definition bind {A B} (m : M A) (k : A -> M B) : M B :=
  fun st =>
    match m st with
    | (Ok a, st') => k a st'
    | (Raise e, st') => (Raise e, st')
    end.

Definition raise {A} (e : Exn) : M A := fun st => (Raise e, st).

Definition get_self : M Connection := fun st => (Ok (self st), st).

Definition set_self (c : Connection) : M unit :=
  fun st => (Ok tt, {| self := c; env := env st; trace := trace st |}).

Definition emit (ev : Event) : M unit :=
  fun st => (Ok tt, {| self := self st; env := env st; trace := trace st ++ [ev] |}).

(** Call an inherited method: record the call, then let it act on the
    environment. *)
Definition call {A} (ev : Event) (f : Connection -> Env -> Res A * Env) : M A :=
  fun st =>
    let '(r, e') := f (self st) (env st) in
    (r, {| self := self st; env := e'; trace := trace st ++ [ev] |}).

#[global] Instance M_ret : MRet M := @ret.
#[global] Instance M_bind : MBind M := fun A B k m => bind m k.

(** [SSH.display.vvv(msg)] *)
Definition vvv (msg : string) : M unit := emit (Vvv msg).

(** [SSH.to_bytes(s, errors='surrogate_or_strict')]: a byte string is
    returned as it is. *)
Definition to_bytes (s : string) : string := s.

(** ** The methods of [Connection] *)

(** [__init__]: after the inherited constructor, every descriptor field is
    the play context's attribute when it has one, and a default
    otherwise. *)
Definition __init__ (pc : PlayContext) : Connection :=
  {| _play_context := pc;
     host := super_init pc;
     chroot_path :=
       match attrs pc !! "chroot_path" with Some v => v | None => None end;
     container_name :=
       match attrs pc !! "container_name" with Some v => v | None => None end;
     physical_host :=
       match attrs pc !! "physical_host" with Some v => v | None => None end;
     container_type :=
       match attrs pc !! "container_type" with Some v => v | None => Some "lxc" end |}.

Definition _chroot_check : M bool :=
  c ← get_self;
  match chroot_path c with
  | Some _ =>
      vvv ("chroot_path: " ++ dquote ++ fmt_s (chroot_path c) ++ dquote);;
      match physical_host c with
      | Some _ =>
          vvv ("physical_host: " ++ dquote ++ fmt_s (physical_host c) ++ dquote);;
          vvv "chroot confirmed";;
          ret true
      | None => ret false
      end
  | None => ret false
  end.

Definition _container_check : M bool :=
  c ← get_self;
  if negb (bool_decide (container_type c = Some "lxc")) then ret false
  else
    match container_name c with
    | Some _ =>
        vvv ("container_name: " ++ dquote ++ fmt_s (container_name c) ++ dquote);;
        match physical_host c with
        | Some _ =>
            vvv ("physical_host: " ++ dquote ++ fmt_s (physical_host c) ++ dquote);;
            if negb (bool_decide (container_name c = physical_host c)) then
              vvv "Container confirmed";;
              ret true
            else ret false
        | None => ret false
        end
    | None => ret false
    end.

Definition set_host_overrides (host_ : string) (hostvars : option HostVars) : M unit :=
  is_container ← _container_check;
  redirect ← (if (is_container : bool) then ret true else _chroot_check);
  if (redirect : bool) then
    match hostvars with
    | None => raise (AttributeError "'NoneType' object has no attribute 'get'")
    | Some hv =>
        c ← get_self;
        let physical_host_addrs : gmap string string :=
          default ∅ (hv !! "physical_host_addrs") in
        let physical_host_addr : option string :=
          match physical_host c with
          | Some ph => Some (default ph (physical_host_addrs !! ph))
          | None => None
          end in
        set_self
          {| _play_context :=
               {| attrs := attrs (_play_context c);
                  remote_user := remote_user (_play_context c);
                  remote_addr := physical_host_addr |};
             host := physical_host_addr;
             chroot_path := chroot_path c;
             container_name := container_name c;
             physical_host := physical_host c;
             container_type := container_type c |}
    end
  else ret tt.

(** The local [container_user] of [exec_command]: the remote user when it
    is set (and not empty), and root otherwise. *)
Definition container_user (pc : PlayContext) : string :=
  match remote_user pc with
  | Some u => if String.eqb u "" then "root" else to_bytes u
  | None => "root"
  end.

Definition exec_command (cmd : string) (in_data : option string) (sudoable : bool)
  : M CmdResult :=
  is_container ← _container_check;
  cmd ← (if (is_container : bool) then
            c ← get_self;
            let lxc_command :=
              "lxc-attach --clear-env --name " ++ fmt_s (container_name c) in
            ret (lxc_command ++ " -- su - " ++ container_user (_play_context c)
                   ++ " -c " ++ shlex_quote cmd)
          else ret cmd);
  is_chroot ← _chroot_check;
  cmd ← (if (is_chroot : bool) then
            c ← get_self;
            let chroot_command := "chroot " ++ fmt_s (chroot_path c) in
            ret (chroot_command ++ " " ++ cmd)
          else ret cmd);
  call (SuperExecCommand cmd in_data sudoable)
       (fun c => super_exec_command c cmd in_data sudoable).

(** The local [args] of [_container_path_pad], after the binary: the host
    to dial and the command that prints the container's PID. *)
Definition pid_lookup_args (c : Connection) : list (option string) :=
  [host c;
   Some ("lxc-info --name " ++ fmt_s (container_name c)
           ++ " --pid | awk '/PID:/ {print $2}'")].

Definition _container_path_pad (path : string) (fake_path : bool) : M string :=
  c ← get_self;
  let argv := _build_command c "ssh" (pid_lookup_args c) in
  '(returncode, stdout, _) ← call (Run argv None false)
                                  (fun c => _run c argv None false);
  if returncode =? 0 then
    let pad := path_join ("/proc/" ++ strip stdout ++ "/root") (lstrip_sep path) in
    vvv ("The path has been padded with the following to support a"
           ++ " container rootfs: [ " ++ pad ++ " ]");;
    ret pad
  else
    raise (AnsibleError
             ("No valid container info was found for container " ++ dquote
                ++ fmt_s (container_name c) ++ dquote
                ++ " Please check the state of the container.")).

Definition fetch_file (in_path out_path : string) : M unit :=
  is_container ← _container_check;
  in_path ← (if (is_container : bool) then _container_path_pad in_path false
              else ret in_path);
  call (SuperFetchFile in_path out_path)
       (fun c => super_fetch_file c in_path out_path).

Definition put_file (in_path out_path : string) : M unit :=
  is_container ← _container_check;
  out_path ← (if (is_container : bool) then _container_path_pad out_path false
               else ret out_path);
  call (SuperPutFile in_path out_path)
       (fun c => super_put_file c in_path out_path).

End Plugin.

Arguments St Env : clear implicits.
Arguments M Env A : clear implicits.

(** ** A scripted transport

  A transport for running the plugin on concrete inputs.  Its environment
  is the script: the result the next remote command gives.  The inherited
  constructor stores the play context's [remote_addr] as [host], and the
  command line built for [ssh] is the binary followed by its arguments. *)

Module Scripted.

Definition Env : Type := CmdResult.

#[global] Instance transport : SSHConnection Env := {|
  super_init pc := remote_addr pc;
  _build_command _ binary args := binary :: map fmt_s args;
  _run _ _ _ _ e := (Ok e, e);
  super_exec_command _ _ _ _ e := (Ok (0, "", ""), e);
  super_fetch_file _ _ _ e := (Ok tt, e);
  super_put_file _ _ _ e := (Ok tt, e);
|}.

(** A play context with the given descriptor attributes and address. *)
Definition play_context (vars : list (string * option string))
    (user addr : option string) : PlayContext :=
  {| attrs := list_to_map vars; remote_user := user; remote_addr := addr |}.

(** The state of a connection just constructed from [pc], with [e] the
    result remote commands will give. *)
Definition fresh (pc : PlayContext) (e : Env) : St Env :=
  {| self := __init__ pc; env := e; trace := [] |}.

(** The descriptors of the examples: container [c1] on the physical host
    [h1], reached at the address [c1]; the same under a chroot; a chroot
    alone; and a plain host. *)
Definition lxc_pc : PlayContext :=
  play_context [("container_name", Some "c1"); ("physical_host", Some "h1")]
               None (Some "c1").

Definition lxc_chroot_pc : PlayContext :=
  play_context [("container_name", Some "c1"); ("physical_host", Some "h1");
                ("chroot_path", Some "/srv/root")]
               None (Some "c1").

Definition chroot_pc : PlayContext :=
  play_context [("physical_host", Some "h1"); ("chroot_path", Some "/srv/root")]
               None (Some "h1").

Definition plain_pc : PlayContext := play_context [] None (Some "h1").

(** Remote commands succeed and print [1234]. *)
Definition found : Env := (0, "1234" ++ nl, "").

(** Remote commands fail. *)
Definition not_found : Env := (1, "", "").

(** Host variables that give [h1] the address [10.0.0.1], and host variables
    that say nothing. *)
Definition addrs_hv : HostVars :=
  {[ "physical_host_addrs" := {[ "h1" := "10.0.0.1" ]} ]}.

Definition empty_hv : HostVars := ∅.

End Scripted.

(** ** Observations

    What the statements below are written with: the calls found in a trace,
    and the answers of the two checks and the rewritten command as plain
    functions of the connection's fields. *)

Section Observations.

Context {Env : Type} {ssh : SSHConnection Env}.

(** The state after the events [evs] were handed out. *)
Definition log (evs : list Event) (st : St Env) : St Env :=
  {| self := self st; env := env st; trace := trace st ++ evs |}.

Definition is_call (ev : Event) : bool :=
  match ev with
  | Vvv _ => false
  | _ => true
  end.

(** The calls of inherited methods in a trace, in order: the trace without
    the display messages. *)
Definition calls (t : list Event) : list Event := List.filter is_call t.

(** The value [_container_check] returns, read off the fields. *)
Definition container_confirmed (c : Connection) : bool :=
  bool_decide (container_type c = Some "lxc")
  && match container_name c, physical_host c with
     | Some _, Some _ => negb (bool_decide (container_name c = physical_host c))
     | _, _ => false
     end.

Definition chroot_confirmed (c : Connection) : bool :=
  match chroot_path c, physical_host c with
  | Some _, Some _ => true
  | _, _ => false
  end.

(** The connection [c] with another container name. *)
Definition with_container_name (n : option string) (c : Connection) : Connection :=
  {| _play_context := _play_context c;
     host := host c;
     chroot_path := chroot_path c;
     container_name := n;
     physical_host := physical_host c;
     container_type := container_type c |}.

(** The command [exec_command] ends up with, read off the fields. *)
Definition command_sent (c : Connection) (cmd : string) : string :=
  let inner :=
    if container_confirmed c then
      "lxc-attach --clear-env --name " ++ fmt_s (container_name c)
        ++ " -- su - " ++ container_user (_play_context c)
        ++ " -c " ++ shlex_quote cmd
    else cmd in
  if chroot_confirmed c then "chroot " ++ fmt_s (chroot_path c) ++ " " ++ inner
  else inner.

(** The command line of the PID lookup on the connection [c]. *)
Definition pid_lookup_argv (c : Connection) : list string :=
  _build_command c "ssh" (pid_lookup_args c).

(** The connection [c] dialing [addr]: [addr] is both its [host] and the
    play context's [remote_addr]. *)
Definition redirected (addr : option string) (c : Connection) : Connection :=
  {| _play_context :=
       {| attrs := attrs (_play_context c);
          remote_user := remote_user (_play_context c);
          remote_addr := addr |};
     host := addr;
     chroot_path := chroot_path c;
     container_name := container_name c;
     physical_host := physical_host c;
     container_type := container_type c |}.

End Observations.

(** ** A replayed transport

    A second transport for concrete runs: its environment is the list of the
    results the next remote commands give, one after the other, each a result
    or an exception; a command run when the list is empty raises. *)

Module Replay.

Definition Env : Type := list (Res CmdResult).

#[global] Instance transport : SSHConnection Env := {|
  super_init pc := remote_addr pc;
  _build_command _ binary args := binary :: map fmt_s args;
  _run _ _ _ _ e :=
    match e with
    | r :: rest => (r, rest)
    | [] => (Raise (TransportError "nothing left to replay"), [])
    end;
  super_exec_command _ _ _ _ e := (Ok (0, "", ""), e);
  super_fetch_file _ _ _ e := (Ok tt, e);
  super_put_file _ _ _ e := (Ok tt, e);
|}.

(** The state of a connection just constructed from [pc], with the results
    [e] to replay. *)
Definition fresh (pc : PlayContext) (e : Env) : St Env :=
  {| self := __init__ pc; env := e; trace := [] |}.

(** The container [c1] of the physical host [h1], with the remote user
    [deploy]. *)
Definition lxc_pc : PlayContext :=
  {| attrs := list_to_map [("container_name", Some "c1"); ("physical_host", Some "h1")];
     remote_user := Some "deploy";
     remote_addr := Some "c1" |}.

(** A container name and a chroot path, and no physical host. *)
Definition orphan_pc : PlayContext :=
  {| attrs := list_to_map [("container_name", Some "c1");
                           ("chroot_path", Some "/srv/root")];
     remote_user := None;
     remote_addr := Some "c1" |}.

(** The container is restarted between two lookups: its PID changes. *)
Definition restarted : Env := [Ok (0, "1234" ++ nl, ""); Ok (0, "5678" ++ nl, "")].

(** The transport cannot reach the host. *)
Definition unreachable : Env := [Raise (TransportError "ssh: connect to host failed")].

(** The lookup succeeds and prints nothing but a newline. *)
Definition silent : Env := [Ok (0, nl, "")].

End Replay.

(** ** Closing the connection *)

(** The two flags of the inherited connection that [close] reads. *)
Record SessionFlags := {
  _connected : bool;
  _persistent : bool;
}.

(** What [close] does with a process: [SSH.subprocess.Popen] on a command
    line, with pipes for the three standard streams, and [communicate]. *)
Inductive ProcessEvent :=
| Popen (cmd : list string)
| Communicate.

Section Close.

Context {Env : Type} {ssh : SSHConnection Env}.

(** [close]: the process events of closing the connection [c], in order. *)
Definition close (c : Connection) (flags : SessionFlags) : list ProcessEvent :=
  if _connected flags && _persistent flags then
    let cmd := _build_command c "ssh" [Some "-O"; Some "stop"; host c] in
    let cmd := map to_bytes cmd in
    [Popen cmd; Communicate]
  else [].

End Close.

(** ** More observations *)

Section MoreObservations.

Context {Env : Type} {ssh : SSHConnection Env}.

Definition is_lookup (ev : Event) : bool :=
  match ev with
  | Run _ _ _ => true
  | _ => false
  end.

(** The remote commands run in a trace, in order. *)
Definition lookups (t : list Event) : list Event := List.filter is_lookup t.

(** The state of a connection just constructed from the play context [pc],
    in the environment [e], after the trace [t]. *)
Definition constructed (pc : PlayContext) (e : Env) (t : list Event) : St Env :=
  {| self := __init__ pc; env := e; trace := t |}.

(** A play context attribute that exists and holds the string [v]. *)
Definition attr_is (pc : PlayContext) (name v : string) : Prop :=
  attrs pc !! name = Some (Some v).

(** A play context attribute that does not exist or holds [None]. *)
Definition attr_unset (pc : PlayContext) (name : string) : Prop :=
  attrs pc !! name = None \/ attrs pc !! name = Some None.

(** A session that is connected and persistent. *)
Definition persistent_session : SessionFlags :=
  {| _connected := true; _persistent := true |}.

End MoreObservations.

(** ** Facts about the string functions *)

Module PyStrFacts.

Lemma append_cons (x : ascii) (a b : string) : String x a ++ b = String x (a ++ b).
Proof. reflexivity. Qed.

Lemma append_assoc (a b c : string) : (a ++ b) ++ c = a ++ (b ++ c).
Proof.
  induction a as [|x a IH]; [reflexivity|].
  now rewrite !append_cons, IH.
Qed.

Lemma append_nil_r (a : string) : a ++ "" = a.
Proof.
  induction a as [|x a IH]; [reflexivity|].
  now rewrite append_cons, IH.
Qed.

(** What is stripped on the left no longer starts with the stripped
    character. *)
Lemma startswith_lstrip_sep (s : string) : startswith sep (lstrip_sep s) = false.
Proof.
  unfold lstrip_sep.
  induction s as [|a s IH]; simpl; [reflexivity|].
  destruct (Ascii.eqb a sep) eqn:E; [exact IH | simpl; exact E].
Qed.

(** A string ends the way its non-empty suffix ends. *)
Lemma endswith_append (c x : ascii) (a b : string) :
  endswith c (a ++ String x b) = endswith c (String x b).
Proof.
  induction a as [|y a IH]; [reflexivity|].
  rewrite append_cons, <- IH.
  destruct a; reflexivity.
Qed.

Lemma append_nonempty (a : string) (x : ascii) (b : string) :
  String.eqb (a ++ String x b) "" = false.
Proof. destruct a; reflexivity. Qed.

(** Joining the root of a process with a path stripped of its leading
    separators puts exactly one separator between them. *)
Lemma path_join_proc_root (pid path : string) :
  path_join ("/proc/" ++ pid ++ "/root") (lstrip_sep path)
  = "/proc/" ++ pid ++ "/root/" ++ lstrip_sep path.
Proof.
  unfold path_join.
  rewrite startswith_lstrip_sep.
  rewrite <- (append_assoc "/proc/" pid "/root").
  rewrite append_nonempty, endswith_append.
  change (endswith sep "/root") with false.
  rewrite !append_assoc. reflexivity.
Qed.

End PyStrFacts.

(** ** What the methods do to the state *)

Section Effects.

Context {Env : Type} {ssh : SSHConnection Env}.

Lemma calls_app (t u : list Event) : calls (t ++ u) = (calls t ++ calls u)%list.
Proof. apply List.filter_app. Qed.

Lemma calls_cons (ev : Event) (t : list Event) :
  calls (ev :: t) = if is_call ev then ev :: calls t else calls t.
Proof. reflexivity. Qed.

Lemma calls_nil : calls [] = [].
Proof. reflexivity. Qed.

Lemma calls_silent (t u : list Event) : calls u = [] -> calls (t ++ u) = calls t.
Proof. intros E. now rewrite calls_app, E, app_nil_r. Qed.

Lemma log_nil (st : St Env) : log [] st = st.
Proof. destruct st; unfold log; simpl. now rewrite app_nil_r. Qed.

Lemma log_log (evs evs' : list Event) (st : St Env) :
  log evs' (log evs st) = log (evs ++ evs')%list st.
Proof. unfold log; simpl. now rewrite app_assoc. Qed.

(** Both checks only talk to the display: they return what the fields say
    and leave the connection and the environment alone. *)
Lemma container_check_run (st : St Env) :
  exists msgs, calls msgs = [] /\
    _container_check st = (Ok (container_confirmed (self st)), log msgs st).
Proof.
  destruct st as [c e t]. unfold _container_check, container_confirmed.
  unfold mbind, M_bind, bind, get_self, vvv, emit, ret, log; simpl.
  destruct (bool_decide (container_type c = Some "lxc")); simpl;
    [| exists []; now rewrite app_nil_r].
  destruct (container_name c) as [cn|]; simpl;
    [| exists []; now rewrite app_nil_r].
  destruct (physical_host c) as [ph|]; simpl;
    [| eexists; split; [| reflexivity]; reflexivity].
  destruct (bool_decide (Some cn = Some ph)); simpl;
    (eexists; split; [| rewrite <- ?app_assoc; simpl; reflexivity]; reflexivity).
Qed.

Lemma chroot_check_run (st : St Env) :
  exists msgs, calls msgs = [] /\
    _chroot_check st = (Ok (chroot_confirmed (self st)), log msgs st).
Proof.
  destruct st as [c e t]. unfold _chroot_check, chroot_confirmed.
  unfold mbind, M_bind, bind, get_self, vvv, emit, ret, log; simpl.
  destruct (chroot_path c) as [p|]; simpl;
    [| exists []; now rewrite app_nil_r].
  destruct (physical_host c) as [ph|]; simpl;
    (eexists; split; [| rewrite <- ?app_assoc; simpl; reflexivity]; reflexivity).
Qed.

Lemma container_check_fst (st : St Env) :
  fst (_container_check st) = Ok (container_confirmed (self st)).
Proof. destruct (container_check_run st) as (m & _ & E). now rewrite E. Qed.

Lemma chroot_check_fst (st : St Env) :
  fst (_chroot_check st) = Ok (chroot_confirmed (self st)).
Proof. destruct (chroot_check_run st) as (m & _ & E). now rewrite E. Qed.

End Effects.

(** Push [calls] through a trace built with [++] and [::]. *)
Ltac calls_norm :=
  rewrite ?calls_app, ?calls_cons, ?calls_nil; cbn [is_call];
  repeat match goal with
    | S : calls _ = [] |- _ => rewrite !S
    end;
  rewrite ?app_nil_r, <- ?app_assoc; cbn [app].

(** ** The indirection classifier *)

Section Classifier.

Context {Env : Type} {ssh : SSHConnection Env}.

(** C4: [_container_check] never raises, and it returns [True] exactly when
    the container type is ["lxc"], the container name is set, the physical
    host is set, and the two differ; in every other case (the name equal to
    the host, another container type) it returns [False]. *)
Theorem container_check_iff (st : St Env) :
  fst (_container_check st)
  = Ok (bool_decide (container_type (self st) = Some "lxc"
                     /\ is_Some (container_name (self st))
                     /\ is_Some (physical_host (self st))
                     /\ container_name (self st) <> physical_host (self st))).
Proof.
  rewrite container_check_fst. f_equal.
  unfold container_confirmed.
  destruct (self st) as [pc h cp cn ph ct]; simpl.
  symmetry.
  destruct (decide (ct = Some "lxc")) as [Ht|Ht].
  - rewrite (bool_decide_eq_true_2 _ Ht); simpl.
    destruct cn as [n|], ph as [p|]; simpl;
      try (apply bool_decide_eq_false_2;
           intros (_ & [x Hx] & [y Hy] & _); discriminate).
    destruct (decide (Some n = Some p)) as [E|E].
    + rewrite (bool_decide_eq_true_2 _ E); simpl.
      apply bool_decide_eq_false_2. intros (_ & _ & _ & Hne). now apply Hne.
    + rewrite (bool_decide_eq_false_2 _ E); simpl.
      apply bool_decide_eq_true_2. repeat split; eauto.
  - rewrite (bool_decide_eq_false_2 _ Ht); simpl.
    apply bool_decide_eq_false_2. intros (Hc & _). now apply Ht.
Qed.

(** Self-routing prevention: a container named as its physical host is not
    a container target, whatever the other fields are. *)
Lemma container_check_same_name (st : St Env) :
  container_name (self st) = physical_host (self st) ->
  fst (_container_check st) = Ok false.
Proof.
  intros E. rewrite container_check_fst. f_equal.
  unfold container_confirmed. rewrite E.
  destruct (physical_host (self st)); [| apply andb_false_r].
  rewrite (bool_decide_eq_true_2 _ eq_refl). apply andb_false_r.
Qed.

(** A container type other than ["lxc"] switches the indirection off
    without an error. *)
Lemma container_check_other_type (st : St Env) :
  container_type (self st) <> Some "lxc" ->
  fst (_container_check st) = Ok false.
Proof.
  intros E. rewrite container_check_fst. f_equal.
  unfold container_confirmed. now rewrite (bool_decide_eq_false_2 _ E).
Qed.

(** C8: [_chroot_check] returns [True] exactly when the chroot path and the
    physical host are both set, and the container name has no part in it:
    the check gives the same answer under any other container name. *)
Theorem chroot_check_iff (st : St Env) :
  fst (_chroot_check st)
  = Ok (bool_decide (is_Some (chroot_path (self st))
                     /\ is_Some (physical_host (self st))))
  /\ forall n : option string,
       fst (_chroot_check {| self := with_container_name n (self st);
                             env := env st; trace := trace st |})
       = fst (_chroot_check st).
Proof.
  split.
  - rewrite chroot_check_fst. f_equal.
    unfold chroot_confirmed.
    destruct (chroot_path (self st)) as [p|], (physical_host (self st)) as [ph|];
      symmetry;
      first [ apply bool_decide_eq_true_2; split; eauto
            | apply bool_decide_eq_false_2; intros ([x Hx] & [y Hy]); discriminate ].
  - intros n. now rewrite !chroot_check_fst.
Qed.

End Classifier.

(** ** The command rewriter *)

Section CommandRewriter.

Context {Env : Type} {ssh : SSHConnection Env}.

(** [exec_command] talks to the display and then makes one call: the
    inherited [exec_command], on the rewritten command. *)
Lemma exec_command_run (cmd : string) (in_data : option string) (sudoable : bool)
    (st : St Env) :
  exists msgs, calls msgs = [] /\
    exec_command cmd in_data sudoable st
    = call (SuperExecCommand (command_sent (self st) cmd) in_data sudoable)
           (fun c => super_exec_command c (command_sent (self st) cmd) in_data sudoable)
           (log msgs st).
Proof.
  unfold exec_command, command_sent, mbind, M_bind, bind.
  destruct (container_check_run st) as (m1 & S1 & E1). rewrite E1.
  destruct (chroot_check_run (log m1 st)) as (m2 & S2 & E2).
  exists (m1 ++ m2)%list. split; [now rewrite calls_app, S1, S2|].
  rewrite <- log_log.
  destruct (container_confirmed (self st)); unfold get_self, ret; simpl;
    rewrite E2; simpl;
    destruct (chroot_confirmed (self st)); reflexivity.
Qed.

Lemma exec_command_calls (cmd : string) (in_data : option string) (sudoable : bool)
    (st : St Env) :
  calls (trace (snd (exec_command cmd in_data sudoable st)))
  = (calls (trace st)
       ++ [SuperExecCommand (command_sent (self st) cmd) in_data sudoable])%list.
Proof.
  destruct (exec_command_run cmd in_data sudoable st) as (msgs & S & E).
  rewrite E. unfold call, log; simpl.
  destruct (super_exec_command _ _ _ _ _); simpl.
  now rewrite calls_app, (calls_silent _ _ S).
Qed.

Lemma container_confirmed_name (c : Connection) :
  container_confirmed c = true -> exists name, container_name c = Some name.
Proof.
  unfold container_confirmed. destruct (container_name c); [eauto|].
  now rewrite andb_false_r.
Qed.

Lemma chroot_confirmed_path (c : Connection) :
  chroot_confirmed c = true -> exists p, chroot_path c = Some p.
Proof. unfold chroot_confirmed. destruct (chroot_path c); [eauto | discriminate]. Qed.

Lemma container_user_set (pc : PlayContext) (u : string) :
  remote_user pc = Some u -> u <> "" -> container_user pc = u.
Proof.
  intros E Hu. unfold container_user. rewrite E.
  destruct (String.eqb_spec u ""); [contradiction | reflexivity].
Qed.

Lemma container_user_unset (pc : PlayContext) :
  remote_user pc = None \/ remote_user pc = Some "" -> container_user pc = "root".
Proof. intros [E|E]; unfold container_user; now rewrite E. Qed.

Ltac read_checks :=
  repeat match goal with
    | E : fst (_container_check _) = Ok _ |- _ =>
        rewrite container_check_fst in E; injection E as E
    | E : fst (_chroot_check _) = Ok _ |- _ =>
        rewrite chroot_check_fst in E; injection E as E
    end.

(** C1, as the code has it: on a container target the command handed to
    the transport is [lxc-attach --clear-env --name <container_name> -- su -
    <user> -c <shell-escaped command>], the user being [remote_user] when it
    is not empty and [root] otherwise; that is the whole command when the
    target is not a chroot target too, and it comes after
    [chroot <chroot_path> ] when it is. *)
Theorem exec_command_container (cmd : string) (in_data : option string)
    (sudoable : bool) (st : St Env) :
  fst (_container_check st) = Ok true ->
  exists name user : string,
    container_name (self st) = Some name
    /\ (forall u, remote_user (_play_context (self st)) = Some u -> u <> "" -> user = u)
    /\ (remote_user (_play_context (self st)) = None
        \/ remote_user (_play_context (self st)) = Some "" -> user = "root")
    /\ (fst (_chroot_check st) = Ok false ->
        calls (trace (snd (exec_command cmd in_data sudoable st)))
        = (calls (trace st)
             ++ [SuperExecCommand
                   ("lxc-attach --clear-env --name " ++ name ++ " -- su - " ++ user
                      ++ " -c " ++ shlex_quote cmd)
                   in_data sudoable])%list)
    /\ (fst (_chroot_check st) = Ok true ->
        exists p : string,
          chroot_path (self st) = Some p
          /\ calls (trace (snd (exec_command cmd in_data sudoable st)))
             = (calls (trace st)
                  ++ [SuperExecCommand
                        ("chroot " ++ p ++ " "
                           ++ ("lxc-attach --clear-env --name " ++ name ++ " -- su - "
                                 ++ user ++ " -c " ++ shlex_quote cmd))
                        in_data sudoable])%list).
Proof.
  intros Hc. read_checks.
  destruct (container_confirmed_name _ Hc) as [name Hn].
  exists name, (container_user (_play_context (self st))).
  split; [exact Hn|].
  split; [intros u Hu Hne; now apply container_user_set|].
  split; [apply container_user_unset|].
  split.
  - intros Hr. read_checks.
    rewrite exec_command_calls. unfold command_sent.
    now rewrite Hc, Hr, Hn.
  - intros Hr. read_checks.
    destruct (chroot_confirmed_path _ Hr) as [p Hp].
    exists p. split; [exact Hp|].
    rewrite exec_command_calls. unfold command_sent.
    now rewrite Hc, Hr, Hn, Hp.
Qed.

(** C5: on a chroot target the command handed to the transport is
    [chroot <chroot_path> ] followed by the original command when the target
    is not a container target, and followed by the container-wrapped command
    when it is: the chroot prefix is always the outer layer. *)
Theorem exec_command_chroot (cmd : string) (in_data : option string)
    (sudoable : bool) (st : St Env) :
  fst (_chroot_check st) = Ok true ->
  exists p : string,
    chroot_path (self st) = Some p
    /\ (fst (_container_check st) = Ok false ->
        calls (trace (snd (exec_command cmd in_data sudoable st)))
        = (calls (trace st)
             ++ [SuperExecCommand ("chroot " ++ p ++ " " ++ cmd) in_data sudoable])%list)
    /\ (fst (_container_check st) = Ok true ->
        exists name : string,
          container_name (self st) = Some name
          /\ calls (trace (snd (exec_command cmd in_data sudoable st)))
             = (calls (trace st)
                  ++ [SuperExecCommand
                        ("chroot " ++ p ++ " "
                           ++ ("lxc-attach --clear-env --name " ++ name ++ " -- su - "
                                 ++ container_user (_play_context (self st))
                                 ++ " -c " ++ shlex_quote cmd))
                        in_data sudoable])%list).
Proof.
  intros Hr. read_checks.
  destruct (chroot_confirmed_path _ Hr) as [p Hp].
  exists p. split; [exact Hp|]. split.
  - intros Hc. read_checks.
    rewrite exec_command_calls. unfold command_sent.
    now rewrite Hc, Hr, Hp.
  - intros Hc. read_checks.
    destruct (container_confirmed_name _ Hc) as [name Hn].
    exists name. split; [exact Hn|].
    rewrite exec_command_calls. unfold command_sent.
    now rewrite Hc, Hr, Hn, Hp.
Qed.

(** C9: on a target that is neither a container nor a chroot target,
    [exec_command] hands the original command to the transport unchanged,
    and returns what the transport returns for it. *)
Theorem exec_command_identity (cmd : string) (in_data : option string)
    (sudoable : bool) (st : St Env) :
  fst (_container_check st) = Ok false ->
  fst (_chroot_check st) = Ok false ->
  calls (trace (snd (exec_command cmd in_data sudoable st)))
  = (calls (trace st) ++ [SuperExecCommand cmd in_data sudoable])%list
  /\ fst (exec_command cmd in_data sudoable st)
     = fst (super_exec_command (self st) cmd in_data sudoable (env st)).
Proof.
  intros Hc Hr. read_checks.
  assert (E : command_sent (self st) cmd = cmd)
    by (unfold command_sent; now rewrite Hc, Hr).
  split.
  - now rewrite exec_command_calls, E.
  - destruct (exec_command_run cmd in_data sudoable st) as (msgs & S & R).
    rewrite R, E. unfold call, log; simpl.
    now destruct (super_exec_command _ _ _ _ _).
Qed.

End CommandRewriter.

(** ** The path rewriter *)

Section PathRewriter.

Context {Env : Type} {ssh : SSHConnection Env}.

(** When the lookup exits with status zero, [_container_path_pad] returns the
    path under the root of the process it printed, after one call (the
    lookup) and a message for the display. *)
Lemma container_path_pad_found_run (path : string) (fake_path : bool) (st : St Env)
    (out err : string) (e' : Env) :
  _run (self st) (pid_lookup_argv (self st)) None false (env st)
  = (Ok (0, out, err), e') ->
  exists msgs, calls msgs = [] /\
    _container_path_pad path fake_path st
    = (Ok ("/proc/" ++ strip out ++ "/root/" ++ lstrip_sep path),
       {| self := self st; env := e';
          trace := trace st ++ Run (pid_lookup_argv (self st)) None false :: msgs |}).
Proof.
  intros R. unfold pid_lookup_argv in R.
  unfold _container_path_pad, mbind, M_bind, bind, get_self, call; simpl.
  rewrite R; simpl.
  rewrite PyStrFacts.path_join_proc_root.
  unfold vvv, emit, ret; simpl.
  eexists. split; [| rewrite <- app_assoc; reflexivity]. reflexivity.
Qed.

(** When the lookup exits with another status, [_container_path_pad] raises
    after that one call. *)
Lemma container_path_pad_not_found_run (path : string) (fake_path : bool)
    (st : St Env) (rc : Z) (out err : string) (e' : Env) :
  _run (self st) (pid_lookup_argv (self st)) None false (env st)
  = (Ok (rc, out, err), e') ->
  rc <> 0 ->
  _container_path_pad path fake_path st
  = (Raise (AnsibleError
              ("No valid container info was found for container " ++ dquote
                 ++ fmt_s (container_name (self st)) ++ dquote
                 ++ " Please check the state of the container.")),
     {| self := self st; env := e';
        trace := trace st ++ [Run (pid_lookup_argv (self st)) None false] |}).
Proof.
  intros R Hrc. unfold pid_lookup_argv in R.
  unfold _container_path_pad, mbind, M_bind, bind, get_self, call; simpl.
  rewrite R; simpl.
  apply Z.eqb_neq in Hrc. rewrite Hrc. reflexivity.
Qed.

(** Both transfers check for a container, pad one path when there is one,
    and hand the pair of paths to the inherited method. *)
Lemma fetch_file_run (in_path out_path : string) (st : St Env) :
  exists msgs, calls msgs = [] /\
    fetch_file in_path out_path st
    = bind (if container_confirmed (self st)
            then _container_path_pad in_path false else ret in_path)
           (fun p => call (SuperFetchFile p out_path)
                          (fun c => super_fetch_file c p out_path))
           (log msgs st).
Proof.
  destruct (container_check_run st) as (msgs & S & E).
  exists msgs. split; [exact S|].
  unfold fetch_file, mbind, M_bind. unfold bind at 1. now rewrite E.
Qed.

Lemma put_file_run (in_path out_path : string) (st : St Env) :
  exists msgs, calls msgs = [] /\
    put_file in_path out_path st
    = bind (if container_confirmed (self st)
            then _container_path_pad out_path false else ret out_path)
           (fun p => call (SuperPutFile in_path p)
                          (fun c => super_put_file c in_path p))
           (log msgs st).
Proof.
  destruct (container_check_run st) as (msgs & S & E).
  exists msgs. split; [exact S|].
  unfold put_file, mbind, M_bind. unfold bind at 1. now rewrite E.
Qed.

Ltac read_check :=
  match goal with
  | E : fst (_container_check _) = Ok _ |- _ =>
      rewrite container_check_fst in E; injection E as E
  end.

(** C2: when the PID lookup exits with status zero, [_container_path_pad]
    returns [/proc/<pid>/root/<path>], the pid being the lookup's output
    stripped of white space and the path being stripped of its leading
    separators. *)
Theorem container_path_pad_found (path : string) (fake_path : bool) (st : St Env)
    (out err : string) (e' : Env) :
  _run (self st) (pid_lookup_argv (self st)) None false (env st)
  = (Ok (0, out, err), e') ->
  fst (_container_path_pad path fake_path st)
  = Ok ("/proc/" ++ strip out ++ "/root/" ++ lstrip_sep path).
Proof.
  intros R.
  destruct (container_path_pad_found_run path fake_path st out err e' R)
    as (msgs & _ & E).
  now rewrite E.
Qed.

(** C3: when the PID lookup exits with a status other than zero,
    [_container_path_pad] raises an [AnsibleError] whose message contains the
    container name, after the one lookup; on a container target [fetch_file]
    and [put_file] raise that error too, and make no call but that lookup:
    nothing is transferred and nothing is tried again. *)
Theorem container_path_pad_not_found (path in_path out_path : string)
    (fake_path : bool) (st : St Env) (rc : Z) (out err : string) (e' : Env) :
  _run (self st) (pid_lookup_argv (self st)) None false (env st)
  = (Ok (rc, out, err), e') ->
  rc <> 0 ->
  exists msg : string,
    fst (_container_path_pad path fake_path st) = Raise (AnsibleError msg)
    /\ (forall name, container_name (self st) = Some name -> contains name msg)
    /\ calls (trace (snd (_container_path_pad path fake_path st)))
       = (calls (trace st) ++ [Run (pid_lookup_argv (self st)) None false])%list
    /\ (fst (_container_check st) = Ok true ->
        fst (fetch_file in_path out_path st) = Raise (AnsibleError msg)
        /\ calls (trace (snd (fetch_file in_path out_path st)))
           = (calls (trace st) ++ [Run (pid_lookup_argv (self st)) None false])%list
        /\ fst (put_file in_path out_path st) = Raise (AnsibleError msg)
        /\ calls (trace (snd (put_file in_path out_path st)))
           = (calls (trace st) ++ [Run (pid_lookup_argv (self st)) None false])%list).
Proof.
  intros R Hrc. eexists. split; [|split; [|split]].
  - now rewrite (container_path_pad_not_found_run path fake_path st rc out err e' R Hrc).
  - intros name Hn. rewrite Hn. simpl fmt_s.
    eexists (_ ++ dquote), _. rewrite PyStrFacts.append_assoc. reflexivity.
  - rewrite (container_path_pad_not_found_run path fake_path st rc out err e' R Hrc).
    simpl. now rewrite calls_app.
  - intros Hc. read_check.
    destruct (fetch_file_run in_path out_path st) as (m1 & S1 & E1).
    destruct (put_file_run in_path out_path st) as (m2 & S2 & E2).
    rewrite E1, E2, Hc. unfold bind.
    rewrite (container_path_pad_not_found_run in_path false (log m1 st) rc out err e' R Hrc).
    rewrite (container_path_pad_not_found_run out_path false (log m2 st) rc out err e' R Hrc).
    simpl. calls_norm. auto.
Qed.

(** C10: on a container target whose PID lookup succeeds, [fetch_file] pads
    the remote source path and hands the local destination path on as it is,
    and [put_file] pads the remote destination path and hands the local
    source path on as it is; on any other target, a chroot target included,
    both hand both paths on as they are. *)
Theorem transfer_pads_remote_path_only (in_path out_path : string) (st : St Env) :
  (fst (_container_check st) = Ok true ->
   forall (out err : string) (e' : Env),
     _run (self st) (pid_lookup_argv (self st)) None false (env st)
     = (Ok (0, out, err), e') ->
     calls (trace (snd (fetch_file in_path out_path st)))
     = (calls (trace st)
          ++ [Run (pid_lookup_argv (self st)) None false;
              SuperFetchFile ("/proc/" ++ strip out ++ "/root/" ++ lstrip_sep in_path)
                             out_path])%list
     /\ calls (trace (snd (put_file in_path out_path st)))
        = (calls (trace st)
             ++ [Run (pid_lookup_argv (self st)) None false;
                 SuperPutFile in_path
                              ("/proc/" ++ strip out ++ "/root/" ++ lstrip_sep out_path)])%list)
  /\ (fst (_container_check st) = Ok false ->
      calls (trace (snd (fetch_file in_path out_path st)))
      = (calls (trace st) ++ [SuperFetchFile in_path out_path])%list
      /\ calls (trace (snd (put_file in_path out_path st)))
         = (calls (trace st) ++ [SuperPutFile in_path out_path])%list).
Proof.
  destruct (fetch_file_run in_path out_path st) as (m1 & S1 & E1).
  destruct (put_file_run in_path out_path st) as (m2 & S2 & E2).
  rewrite E1, E2. split.
  - intros Hc out err e' R. read_check. rewrite Hc. unfold bind.
    destruct (container_path_pad_found_run in_path false (log m1 st) out err e' R)
      as (n1 & T1 & P1).
    destruct (container_path_pad_found_run out_path false (log m2 st) out err e' R)
      as (n2 & T2 & P2).
    rewrite P1, P2. unfold call; simpl.
    destruct (super_fetch_file _ _ _ _), (super_put_file _ _ _ _); simpl.
    calls_norm. auto.
  - intros Hc. read_check. rewrite Hc. unfold bind, ret, call; simpl.
    destruct (super_fetch_file _ _ _ _), (super_put_file _ _ _ _); simpl.
    calls_norm. auto.
Qed.

End PathRewriter.

(** ** The dialed address *)

Section HostOverrides.

Context {Env : Type} {ssh : SSHConnection Env}.

(** On a target that either check confirms, [set_host_overrides] talks to
    the display and redirects the connection to the address it finds for the
    physical host. *)
Lemma set_host_overrides_run (host_ : string) (hv : HostVars) (st : St Env) :
  container_confirmed (self st) || chroot_confirmed (self st) = true ->
  exists (ph : string) (msgs : list Event),
    physical_host (self st) = Some ph
    /\ calls msgs = []
    /\ set_host_overrides host_ (Some hv) st
       = (Ok tt,
          {| self :=
               redirected
                 (Some (match hv !! "physical_host_addrs" with
                        | Some addrs => default ph (addrs !! ph)
                        | None => ph
                        end))
                 (self st);
             env := env st;
             trace := trace st ++ msgs |}).
Proof.
  intros Hr.
  assert (exists ph, physical_host (self st) = Some ph) as [ph Hph].
  { unfold container_confirmed, chroot_confirmed in Hr.
    destruct (physical_host (self st)); [eauto|].
    destruct (container_name (self st)), (chroot_path (self st));
      rewrite ?andb_false_r in Hr; discriminate. }
  unfold set_host_overrides, mbind, M_bind, bind.
  destruct (container_check_run st) as (m1 & S1 & E1). rewrite E1.
  destruct (chroot_check_run (log m1 st)) as (m2 & S2 & E2).
  assert (A : default ph (default ∅ (hv !! "physical_host_addrs") !! ph)
              = match hv !! "physical_host_addrs" with
                | Some addrs => default ph (addrs !! ph)
                | None => ph
                end).
  { destruct (hv !! "physical_host_addrs"); simpl; [reflexivity|].
    now rewrite lookup_empty. }
  destruct (container_confirmed (self st)); unfold ret.
  - exists ph, m1. split; [exact Hph|]. split; [exact S1|].
    unfold get_self, set_self, redirected, log; simpl.
    now rewrite Hph, A.
  - rewrite E2. simpl in Hr |- *. rewrite Hr.
    exists ph, (m1 ++ m2)%list. split; [exact Hph|].
    split; [now rewrite calls_app, S1, S2|].
    unfold get_self, set_self, redirected, log; simpl.
    now rewrite Hph, A, app_assoc.
Qed.

(** [_container_path_pad] always makes one call: the PID lookup, on the
    connection's current host. *)
Lemma container_path_pad_calls (path : string) (fake_path : bool) (st : St Env) :
  calls (trace (snd (_container_path_pad path fake_path st)))
  = (calls (trace st) ++ [Run (pid_lookup_argv (self st)) None false])%list.
Proof.
  unfold _container_path_pad, mbind, M_bind, bind, get_self, call; simpl.
  fold (pid_lookup_argv (self st)).
  destruct (_run _ _ _ _ _) as [[[[rc out] err]|e] e']; simpl;
    [| now calls_norm].
  destruct (rc =? 0); unfold vvv, emit, ret, raise; simpl; now calls_norm.
Qed.

(** C6: when either check confirms the target, [set_host_overrides] makes the
    dialed address (the connection's [host] and the play context's
    [remote_addr]) the entry of [physical_host_addrs] for the physical host,
    and the physical host's identifier itself when there is no such entry. *)
Theorem set_host_overrides_redirects (host_ : string) (hv : HostVars) (st : St Env) :
  fst (_container_check st) = Ok true \/ fst (_chroot_check st) = Ok true ->
  exists ph addr : string,
    physical_host (self st) = Some ph
    /\ addr = match hv !! "physical_host_addrs" with
              | Some addrs => default ph (addrs !! ph)
              | None => ph
              end
    /\ fst (set_host_overrides host_ (Some hv) st) = Ok tt
    /\ host (self (snd (set_host_overrides host_ (Some hv) st))) = Some addr
    /\ remote_addr (_play_context (self (snd (set_host_overrides host_ (Some hv) st))))
       = Some addr.
Proof.
  intros Hr.
  assert (Hb : container_confirmed (self st) || chroot_confirmed (self st) = true).
  { rewrite container_check_fst, chroot_check_fst in Hr.
    destruct Hr as [E|E]; injection E as ->; [reflexivity | apply orb_true_r]. }
  destruct (set_host_overrides_run host_ hv st Hb) as (ph & msgs & Hph & _ & E).
  exists ph. eexists. split; [exact Hph|]. split; [reflexivity|].
  now rewrite E.
Qed.

(** C7, as the code has it: [_container_path_pad] looks no address up.  It
    runs [lxc-info --name <container_name> --pid | awk '/PID:/ {print $2}']
    through [ssh] against the connection's current [host], with no input and
    not sudoable, and makes no other call.  On a container target that
    [set_host_overrides] has redirected with the host variables [hv], that
    host is the address [hv] gives for the physical host, or the physical
    host's identifier when [hv] gives none. *)
Theorem container_path_pad_dials_host (path : string) (fake_path : bool) (st : St Env) :
  calls (trace (snd (_container_path_pad path fake_path st)))
  = (calls (trace st)
       ++ [Run (_build_command (self st) "ssh"
                  [host (self st);
                   Some ("lxc-info --name " ++ fmt_s (container_name (self st))
                           ++ " --pid | awk '/PID:/ {print $2}'")%string])
               None false])%list
  /\ forall (host_ : string) (hv : HostVars),
       fst (_container_check st) = Ok true ->
       exists ph name : string,
         physical_host (self st) = Some ph
         /\ container_name (self st) = Some name
         /\ let st1 := snd (set_host_overrides host_ (Some hv) st) in
            calls (trace (snd (_container_path_pad path fake_path st1)))
            = (calls (trace st1)
                 ++ [Run (_build_command (self st1) "ssh"
                            [Some (match hv !! "physical_host_addrs" with
                                   | Some addrs => default ph (addrs !! ph)
                                   | None => ph
                                   end);
                             Some ("lxc-info --name " ++ name
                                     ++ " --pid | awk '/PID:/ {print $2}'")%string])
                         None false])%list.
Proof.
  split; [apply container_path_pad_calls|].
  intros host_ hv Hc.
  rewrite container_check_fst in Hc; injection Hc as Hc.
  assert (Hb : container_confirmed (self st) || chroot_confirmed (self st) = true)
    by now rewrite Hc.
  destruct (set_host_overrides_run host_ hv st Hb) as (ph & msgs & Hph & _ & E).
  assert (exists name, container_name (self st) = Some name) as [name Hn].
  { unfold container_confirmed in Hc. destruct (container_name (self st)); [eauto|].
    now rewrite andb_false_r in Hc. }
  exists ph, name. split; [exact Hph|]. split; [exact Hn|].
  cbv zeta. rewrite container_path_pad_calls, E. simpl.
  unfold pid_lookup_argv, pid_lookup_args; simpl. now rewrite Hn.
Qed.

End HostOverrides.

(** ** What the methods leave alone *)

Section Frame.

Context {Env : Type} {ssh : SSHConnection Env}.

Lemma lookups_app (t u : list Event) : lookups (t ++ u) = (lookups t ++ lookups u)%list.
Proof. apply List.filter_app. Qed.

Lemma lookups_cons (ev : Event) (t : list Event) :
  lookups (ev :: t) = if is_lookup ev then ev :: lookups t else lookups t.
Proof. reflexivity. Qed.

Lemma lookups_nil : lookups [] = [].
Proof. reflexivity. Qed.

Lemma lookups_silent (msgs : list Event) : calls msgs = [] -> lookups msgs = [].
Proof.
  induction msgs as [|ev msgs IH]; [reflexivity|].
  rewrite calls_cons. destruct ev; simpl; try discriminate. exact IH.
Qed.

Ltac lookups_norm :=
  rewrite ?lookups_app, ?lookups_cons, ?lookups_nil; cbn [is_lookup];
  repeat match goal with
    | S : lookups _ = [] |- _ => rewrite !S
    end;
  rewrite ?app_nil_r, <- ?app_assoc; cbn [app].

(** The messages of a check, as strings. *)
Lemma container_check_messages (st : St Env) :
  exists msgs : list string,
    snd (_container_check st) = log (map Vvv msgs) st
    /\ (In "Container confirmed" msgs <-> container_confirmed (self st) = true).
Proof.
  destruct st as [c e t]. unfold _container_check, container_confirmed.
  unfold mbind, M_bind, bind, get_self, vvv, emit, ret, log; simpl.
  destruct (bool_decide (container_type c = Some "lxc")); simpl;
    [| exists []; simpl; rewrite app_nil_r; split; [reflexivity|];
       split; [contradiction | discriminate]].
  destruct (container_name c) as [cn|]; simpl;
    [| exists []; simpl; rewrite app_nil_r; split; [reflexivity|];
       split; [contradiction | discriminate]].
  destruct (physical_host c) as [ph|]; simpl.
  - destruct (bool_decide (Some cn = Some ph)); simpl.
    + eexists [_; _]. simpl. rewrite <- app_assoc. split; [reflexivity|].
      split; [| discriminate].
      intros [E|[E|[]]]; cbv in E; discriminate E.
    + eexists [_; _; _]. simpl. rewrite <- !app_assoc. split; [reflexivity|].
      split; [reflexivity|]. intros _. right. right. now left.
  - eexists [_]. simpl. split; [reflexivity|].
    split; [| discriminate].
    intros [E|[]]; cbv in E; discriminate E.
Qed.

Lemma chroot_check_messages (st : St Env) :
  exists msgs : list string,
    snd (_chroot_check st) = log (map Vvv msgs) st
    /\ (In "chroot confirmed" msgs <-> chroot_confirmed (self st) = true).
Proof.
  destruct st as [c e t]. unfold _chroot_check, chroot_confirmed.
  unfold mbind, M_bind, bind, get_self, vvv, emit, ret, log; simpl.
  destruct (chroot_path c) as [p|]; simpl;
    [| exists []; simpl; rewrite app_nil_r; split; [reflexivity|];
       split; [contradiction | discriminate]].
  destruct (physical_host c) as [ph|]; simpl.
  - eexists [_; _; _]. simpl. rewrite <- !app_assoc. split; [reflexivity|].
    split; [reflexivity|]. intros _. right. right. now left.
  - eexists [_]. simpl. split; [reflexivity|].
    split; [| discriminate].
    intros [E|[]]; cbv in E; discriminate E.
Qed.

(** X1: the two checks only talk to the display.  Each leaves the connection
    and the environment as they are and adds nothing but messages to the
    trace, and its confirmation message is among them exactly when it answers
    [True]. *)
Theorem checks_only_display (st : St Env) :
  (exists msgs : list string,
      snd (_container_check st) = log (map Vvv msgs) st
      /\ (In "Container confirmed" msgs <-> fst (_container_check st) = Ok true))
  /\ (exists msgs : list string,
         snd (_chroot_check st) = log (map Vvv msgs) st
         /\ (In "chroot confirmed" msgs <-> fst (_chroot_check st) = Ok true)).
Proof.
  split.
  - destruct (container_check_messages st) as (msgs & E & I).
    exists msgs. split; [exact E|].
    rewrite container_check_fst, I. split; [now intros -> | now intros [= ->]].
  - destruct (chroot_check_messages st) as (msgs & E & I).
    exists msgs. split; [exact E|].
    rewrite chroot_check_fst, I. split; [now intros -> | now intros [= ->]].
Qed.

(** X2: whatever the target, [exec_command] makes exactly one inherited call,
    the inherited [exec_command], with [in_data] and [sudoable] as it got
    them; it returns or raises what that call returns or raises, leaves the
    environment as that call leaves it, and does not touch the connection. *)
Theorem exec_command_delegates (cmd : string) (in_data : option string)
    (sudoable : bool) (st : St Env) :
  exists cmd' : string,
    calls (trace (snd (exec_command cmd in_data sudoable st)))
    = (calls (trace st) ++ [SuperExecCommand cmd' in_data sudoable])%list
    /\ fst (exec_command cmd in_data sudoable st)
       = fst (super_exec_command (self st) cmd' in_data sudoable (env st))
    /\ env (snd (exec_command cmd in_data sudoable st))
       = snd (super_exec_command (self st) cmd' in_data sudoable (env st))
    /\ self (snd (exec_command cmd in_data sudoable st)) = self st.
Proof.
  exists (command_sent (self st) cmd).
  split; [apply exec_command_calls|].
  destruct (exec_command_run cmd in_data sudoable st) as (msgs & S & R).
  rewrite R. unfold call, log; simpl.
  now destruct (super_exec_command _ _ _ _ _).
Qed.

(** Whatever the lookup gives, [_container_path_pad] runs it once, adds
    nothing but messages after it, and keeps the connection. *)
Lemma container_path_pad_shape (path : string) (fake_path : bool) (st : St Env) :
  exists (r : Res string) (e' : Env) (msgs : list Event),
    calls msgs = []
    /\ _container_path_pad path fake_path st
       = (r, {| self := self st; env := e';
                trace := trace st ++ Run (pid_lookup_argv (self st)) None false :: msgs |}).
Proof.
  unfold _container_path_pad, mbind, M_bind, bind, get_self, call; simpl.
  fold (pid_lookup_argv (self st)).
  destruct (_run _ _ _ _ _) as [[[[rc out] err]|e] e']; simpl;
    [| now exists (Raise e), e', []].
  destruct (rc =? 0); unfold vvv, emit, ret, raise; simpl.
  - eexists _, e', _. split; [| rewrite <- app_assoc; reflexivity]. reflexivity.
  - now eexists _, e', [].
Qed.

(** A transfer adds to the trace and keeps the connection; on a container
    target what it adds holds exactly one remote command, the lookup, and on
    any other target none. *)
Lemma fetch_file_shape (in_path out_path : string) (st : St Env) :
  exists (r : Res unit) (e' : Env) (evs : list Event),
    fetch_file in_path out_path st
    = (r, {| self := self st; env := e'; trace := trace st ++ evs |})
    /\ lookups evs
       = if container_confirmed (self st)
         then [Run (pid_lookup_argv (self st)) None false] else [].
Proof.
  destruct (fetch_file_run in_path out_path st) as (m & S & E). rewrite E.
  pose proof (lookups_silent m S) as L.
  destruct (container_confirmed (self st)); unfold bind.
  - destruct (container_path_pad_shape in_path false (log m st))
      as (r & e' & msgs & S' & P).
    pose proof (lookups_silent msgs S') as L'.
    rewrite P. simpl. destruct r as [p|e]; unfold call; simpl.
    + destruct (super_fetch_file _ _ _ _) as [r e'']. simpl.
      exists r, e'',
        (m ++ (Run (pid_lookup_argv (self st)) None false :: msgs)
           ++ [SuperFetchFile p out_path])%list.
      split; [now rewrite !app_assoc|]. lookups_norm. reflexivity.
    + exists (Raise e), e',
        (m ++ Run (pid_lookup_argv (self st)) None false :: msgs)%list.
      split; [now rewrite !app_assoc|]. lookups_norm. reflexivity.
  - unfold ret, call; simpl.
    destruct (super_fetch_file _ _ _ _) as [r e'']. simpl.
    exists r, e'', (m ++ [SuperFetchFile in_path out_path])%list.
    split; [now rewrite !app_assoc|]. lookups_norm. reflexivity.
Qed.

Lemma put_file_shape (in_path out_path : string) (st : St Env) :
  exists (r : Res unit) (e' : Env) (evs : list Event),
    put_file in_path out_path st
    = (r, {| self := self st; env := e'; trace := trace st ++ evs |})
    /\ lookups evs
       = if container_confirmed (self st)
         then [Run (pid_lookup_argv (self st)) None false] else [].
Proof.
  destruct (put_file_run in_path out_path st) as (m & S & E). rewrite E.
  pose proof (lookups_silent m S) as L.
  destruct (container_confirmed (self st)); unfold bind.
  - destruct (container_path_pad_shape out_path false (log m st))
      as (r & e' & msgs & S' & P).
    pose proof (lookups_silent msgs S') as L'.
    rewrite P. simpl. destruct r as [p|e]; unfold call; simpl.
    + destruct (super_put_file _ _ _ _) as [r e'']. simpl.
      exists r, e'',
        (m ++ (Run (pid_lookup_argv (self st)) None false :: msgs)
           ++ [SuperPutFile in_path p])%list.
      split; [now rewrite !app_assoc|]. lookups_norm. reflexivity.
    + exists (Raise e), e',
        (m ++ Run (pid_lookup_argv (self st)) None false :: msgs)%list.
      split; [now rewrite !app_assoc|]. lookups_norm. reflexivity.
  - unfold ret, call; simpl.
    destruct (super_put_file _ _ _ _) as [r e'']. simpl.
    exists r, e'', (m ++ [SuperPutFile in_path out_path])%list.
    split; [now rewrite !app_assoc|]. lookups_norm. reflexivity.
Qed.

(** X3: the path padding and the two transfers never change the connection
    object, whether they return or raise. *)
Theorem transfers_keep_connection (path in_path out_path : string)
    (fake_path : bool) (st : St Env) :
  self (snd (_container_path_pad path fake_path st)) = self st
  /\ self (snd (fetch_file in_path out_path st)) = self st
  /\ self (snd (put_file in_path out_path st)) = self st.
Proof.
  destruct (container_path_pad_shape path fake_path st) as (r1 & e1 & m1 & _ & E1).
  destruct (fetch_file_shape in_path out_path st) as (r2 & e2 & m2 & E2 & _).
  destruct (put_file_shape in_path out_path st) as (r3 & e3 & m3 & E3 & _).
  now rewrite E1, E2, E3.
Qed.

(** X4: an exception of the transport during the PID lookup comes out of
    [_container_path_pad] unchanged; on a container target it comes out of
    [fetch_file] and [put_file] unchanged too, and no transfer is tried: the
    lookup is the only inherited call. *)
Theorem lookup_error_propagates (path in_path out_path : string) (fake_path : bool)
    (st : St Env) (e : Exn) (e' : Env) :
  _run (self st) (pid_lookup_argv (self st)) None false (env st) = (Raise e, e') ->
  fst (_container_path_pad path fake_path st) = Raise e
  /\ (fst (_container_check st) = Ok true ->
      fst (fetch_file in_path out_path st) = Raise e
      /\ calls (trace (snd (fetch_file in_path out_path st)))
         = (calls (trace st) ++ [Run (pid_lookup_argv (self st)) None false])%list
      /\ fst (put_file in_path out_path st) = Raise e
      /\ calls (trace (snd (put_file in_path out_path st)))
         = (calls (trace st) ++ [Run (pid_lookup_argv (self st)) None false])%list).
Proof.
  intros R.
  assert (P : forall p st', self st' = self st -> env st' = env st ->
              _container_path_pad p false st'
              = (Raise e, {| self := self st'; env := e';
                             trace := trace st' ++ [Run (pid_lookup_argv (self st)) None false] |})
              /\ _container_path_pad p fake_path st'
                 = (Raise e, {| self := self st'; env := e';
                                trace := trace st' ++ [Run (pid_lookup_argv (self st)) None false] |})).
  { intros p st' Hs He. unfold pid_lookup_argv in R |- *.
    unfold _container_path_pad, mbind, M_bind, bind, get_self, call; simpl.
    rewrite Hs, He, R. now split. }
  split.
  - now rewrite (proj2 (P path st eq_refl eq_refl)).
  - intros Hc. rewrite container_check_fst in Hc; injection Hc as Hc.
    destruct (fetch_file_run in_path out_path st) as (m1 & S1 & E1).
    destruct (put_file_run in_path out_path st) as (m2 & S2 & E2).
    rewrite E1, E2, Hc. unfold bind.
    rewrite (proj1 (P in_path (log m1 st) eq_refl eq_refl)).
    rewrite (proj1 (P out_path (log m2 st) eq_refl eq_refl)).
    simpl. calls_norm. auto.
Qed.

(** X5: the PID is looked up afresh for every transfer.  On a container
    target a [fetch_file] followed by a [put_file] runs two remote commands,
    whatever the first lookup and the first transfer gave. *)
Theorem every_transfer_looks_up (a b c d : string) (st : St Env) :
  fst (_container_check st) = Ok true ->
  lookups (trace (snd (put_file c d (snd (fetch_file a b st)))))
  = (lookups (trace st)
       ++ [Run (pid_lookup_argv (self st)) None false;
           Run (pid_lookup_argv (self st)) None false])%list.
Proof.
  intros Hc. rewrite container_check_fst in Hc; injection Hc as Hc.
  destruct (fetch_file_shape a b st) as (r1 & e1 & ev1 & E1 & L1).
  rewrite E1. simpl.
  destruct (put_file_shape c d {| self := self st; env := e1; trace := trace st ++ ev1 |})
    as (r2 & e2 & ev2 & E2 & L2).
  rewrite E2. simpl in *. rewrite Hc in L1, L2.
  now rewrite !lookups_app, L1, L2, <- app_assoc.
Qed.

End Frame.

(** ** More on the dialed address *)

Section MoreHostOverrides.

Context {Env : Type} {ssh : SSHConnection Env}.

(** On a target that neither check confirms, [set_host_overrides] talks to
    the display and returns, whatever the host variables are. *)
Lemma set_host_overrides_noop_run (host_ : string) (hostvars : option HostVars)
    (st : St Env) :
  container_confirmed (self st) || chroot_confirmed (self st) = false ->
  exists msgs, calls msgs = [] /\
    set_host_overrides host_ hostvars st = (Ok tt, log msgs st).
Proof.
  intros Hr. apply orb_false_elim in Hr as [Hc Hh].
  unfold set_host_overrides, mbind, M_bind, bind.
  destruct (container_check_run st) as (m1 & S1 & E1). rewrite E1, Hc.
  destruct (chroot_check_run (log m1 st)) as (m2 & S2 & E2).
  rewrite E2. simpl. rewrite Hh. unfold ret.
  exists (m1 ++ m2)%list. split; [now rewrite calls_app, S1, S2|].
  now rewrite log_log.
Qed.

(** On a target that a check confirms, [set_host_overrides] without host
    variables raises after talking to the display. *)
Lemma set_host_overrides_none_run (host_ : string) (st : St Env) :
  container_confirmed (self st) || chroot_confirmed (self st) = true ->
  exists msgs msg, calls msgs = [] /\
    set_host_overrides host_ None st = (Raise (AttributeError msg), log msgs st).
Proof.
  intros Hr.
  unfold set_host_overrides, mbind, M_bind, bind.
  destruct (container_check_run st) as (m1 & S1 & E1). rewrite E1.
  destruct (chroot_check_run (log m1 st)) as (m2 & S2 & E2).
  destruct (container_confirmed (self st)); unfold ret, raise.
  - now eexists m1, _.
  - rewrite E2. simpl in Hr |- *. rewrite Hr.
    eexists (m1 ++ m2)%list, _. split; [now rewrite calls_app, S1, S2|].
    now rewrite log_log.
Qed.

(** All [set_host_overrides] can do to the connection is redirect it. *)
Lemma set_host_overrides_self (host_ : string) (hostvars : option HostVars)
    (st : St Env) :
  exists msgs, calls msgs = [] /\
    trace (snd (set_host_overrides host_ hostvars st)) = (trace st ++ msgs)%list
    /\ env (snd (set_host_overrides host_ hostvars st)) = env st
    /\ (self (snd (set_host_overrides host_ hostvars st)) = self st
        \/ exists addr,
             self (snd (set_host_overrides host_ hostvars st))
             = redirected addr (self st)).
Proof.
  destruct (container_confirmed (self st) || chroot_confirmed (self st)) eqn:Hr.
  - destruct hostvars as [hv|].
    + destruct (set_host_overrides_run host_ hv st Hr) as (ph & msgs & _ & S & E).
      exists msgs. rewrite E. simpl. eauto 6.
    + destruct (set_host_overrides_none_run host_ st Hr) as (msgs & msg & S & E).
      exists msgs. rewrite E. simpl. auto.
  - destruct (set_host_overrides_noop_run host_ hostvars st Hr) as (msgs & S & E).
    exists msgs. rewrite E. simpl. auto.
Qed.

(** X6: on a target that neither check confirms, [set_host_overrides] does
    nothing but talk to the display, whatever it is given (host variables or
    none): it returns, and leaves the connection, its dialed address included,
    and the environment as they are, without any inherited call. *)
Theorem set_host_overrides_leaves_plain_target (host_ : string)
    (hostvars : option HostVars) (st : St Env) :
  fst (_container_check st) = Ok false ->
  fst (_chroot_check st) = Ok false ->
  fst (set_host_overrides host_ hostvars st) = Ok tt
  /\ self (snd (set_host_overrides host_ hostvars st)) = self st
  /\ env (snd (set_host_overrides host_ hostvars st)) = env st
  /\ calls (trace (snd (set_host_overrides host_ hostvars st))) = calls (trace st).
Proof.
  rewrite container_check_fst, chroot_check_fst. intros [= Hc] [= Hh].
  assert (Hr : container_confirmed (self st) || chroot_confirmed (self st) = false)
    by now rewrite Hc, Hh.
  destruct (set_host_overrides_noop_run host_ hostvars st Hr) as (msgs & S & E).
  rewrite E. simpl. now rewrite (calls_silent _ _ S).
Qed.

(** X7: on a target that a check confirms, [set_host_overrides] called
    without host variables (its default, [None]) raises an [AttributeError],
    and the connection keeps the address it had. *)
Theorem set_host_overrides_needs_hostvars (host_ : string) (st : St Env) :
  fst (_container_check st) = Ok true \/ fst (_chroot_check st) = Ok true ->
  (exists msg, fst (set_host_overrides host_ None st) = Raise (AttributeError msg))
  /\ self (snd (set_host_overrides host_ None st)) = self st.
Proof.
  rewrite container_check_fst, chroot_check_fst. intros Hr.
  assert (Hb : container_confirmed (self st) || chroot_confirmed (self st) = true).
  { destruct Hr as [[= ->]|[= ->]]; [reflexivity | apply orb_true_r]. }
  destruct (set_host_overrides_none_run host_ st Hb) as (msgs & msg & S & E).
  rewrite E. simpl. eauto.
Qed.

(** X8: [set_host_overrides] never changes the descriptor: the chroot path,
    the container name, the physical host, the container type and the remote
    user are after it what they were before.  So both checks answer as
    before, and [exec_command] hands the transport the same command. *)
Theorem set_host_overrides_keeps_descriptor (host_ : string)
    (hostvars : option HostVars) (st : St Env) :
  let st' := snd (set_host_overrides host_ hostvars st) in
  (chroot_path (self st') = chroot_path (self st)
   /\ container_name (self st') = container_name (self st)
   /\ physical_host (self st') = physical_host (self st)
   /\ container_type (self st') = container_type (self st)
   /\ remote_user (_play_context (self st')) = remote_user (_play_context (self st)))
  /\ fst (_container_check st') = fst (_container_check st)
  /\ fst (_chroot_check st') = fst (_chroot_check st)
  /\ forall (cmd : string) (in_data : option string) (sudoable : bool),
       exists cmd' : string,
         calls (trace (snd (exec_command cmd in_data sudoable st')))
         = (calls (trace st') ++ [SuperExecCommand cmd' in_data sudoable])%list
         /\ calls (trace (snd (exec_command cmd in_data sudoable st)))
            = (calls (trace st) ++ [SuperExecCommand cmd' in_data sudoable])%list.
Proof.
  cbv zeta.
  destruct (set_host_overrides_self host_ hostvars st) as (msgs & _ & _ & _ & Hs).
  rewrite !container_check_fst, !chroot_check_fst.
  assert (D : forall c addr,
             c = self st \/ c = redirected addr (self st) ->
             (chroot_path c = chroot_path (self st)
              /\ container_name c = container_name (self st)
              /\ physical_host c = physical_host (self st)
              /\ container_type c = container_type (self st)
              /\ remote_user (_play_context c) = remote_user (_play_context (self st)))
             /\ container_confirmed c = container_confirmed (self st)
             /\ chroot_confirmed c = chroot_confirmed (self st)
             /\ forall cmd, command_sent c cmd = command_sent (self st) cmd).
  { intros c addr [->| ->]; repeat split; reflexivity. }
  assert (Hs' : exists addr,
             self (snd (set_host_overrides host_ hostvars st)) = self st
             \/ self (snd (set_host_overrides host_ hostvars st))
                = redirected addr (self st)).
  { destruct Hs as [E|[addr E]]; [exists None | exists addr]; auto. }
  destruct Hs' as [addr Hs'].
  destruct (D _ addr Hs') as (Hd & Hc & Hh & Hcmd).
  split; [exact Hd|]. rewrite Hc, Hh. split; [reflexivity|]. split; [reflexivity|].
  intros cmd i s. exists (command_sent (self st) cmd).
  rewrite !exec_command_calls, Hcmd. now split.
Qed.

End MoreHostOverrides.

(** ** Construction, redirection again, and closing *)

Section Lifecycle.

Context {Env : Type} {ssh : SSHConnection Env}.

(** X9: redirecting twice is redirecting once, with the later host
    variables: on a target that a check confirms, the connection after two
    calls of [set_host_overrides] is the connection after the second alone.
    The address is always found from the physical host, never from the
    address dialed so far. *)
Theorem set_host_overrides_last_wins (h1 h2 : string) (hv1 hv2 : HostVars)
    (st : St Env) :
  fst (_container_check st) = Ok true \/ fst (_chroot_check st) = Ok true ->
  self (snd (set_host_overrides h2 (Some hv2)
               (snd (set_host_overrides h1 (Some hv1) st))))
  = self (snd (set_host_overrides h2 (Some hv2) st)).
Proof.
  rewrite container_check_fst, chroot_check_fst. intros Hr.
  assert (Hb : container_confirmed (self st) || chroot_confirmed (self st) = true).
  { destruct Hr as [[= ->]|[= ->]]; [reflexivity | apply orb_true_r]. }
  destruct (set_host_overrides_run h1 hv1 st Hb) as (ph1 & m1 & P1 & _ & E1).
  destruct (set_host_overrides_run h2 hv2 st Hb) as (ph2 & m2 & P2 & _ & E2).
  rewrite E1, E2. simpl.
  match goal with
  | |- self (snd (set_host_overrides h2 (Some hv2) ?s)) = _ =>
      destruct (set_host_overrides_run h2 hv2 s Hb) as (ph3 & m3 & P3 & _ & E3)
  end.
  rewrite E3. simpl in P3 |- *.
  rewrite P2 in P3. injection P3 as <-. reflexivity.
Qed.

(** X10: which targets a connection just constructed is, read off the play
    context.  It is a container target exactly when the play context has no
    [container_type] attribute or has it as ["lxc"], and has the attributes
    [container_name] and [physical_host] as two different strings; it is a
    chroot target exactly when it has the attributes [chroot_path] and
    [physical_host] as strings. *)
Theorem constructed_targets (pc : PlayContext) (e : Env) (t : list Event) :
  (fst (_container_check (constructed pc e t)) = Ok true
   <-> (attrs pc !! "container_type" = None \/ attr_is pc "container_type" "lxc")
       /\ exists n p : string,
            attr_is pc "container_name" n /\ attr_is pc "physical_host" p /\ n <> p)
  /\ (fst (_chroot_check (constructed pc e t)) = Ok true
      <-> exists cp p : string,
            attr_is pc "chroot_path" cp /\ attr_is pc "physical_host" p).
Proof.
  rewrite container_check_fst, chroot_check_fst.
  unfold container_confirmed, chroot_confirmed, constructed, __init__, attr_is; simpl.
  split.
  - destruct (attrs pc !! "container_type") as [[ct|]|] eqn:Ht; simpl.
    + destruct (decide (ct = "lxc")) as [->|Hne].
      * rewrite (bool_decide_eq_true_2 _ eq_refl); simpl.
        destruct (attrs pc !! "container_name") as [[n|]|],
                 (attrs pc !! "physical_host") as [[p|]|]; simpl;
          try (split; [discriminate | intros (_ & n' & p' & A & B & _); discriminate]).
        destruct (decide (Some n = Some p)) as [E|E].
        -- rewrite (bool_decide_eq_true_2 _ E); simpl.
           split; [discriminate|].
           intros (_ & n' & p' & [= <-] & [= <-] & Hne). congruence.
        -- rewrite (bool_decide_eq_false_2 _ E); simpl.
           split; [| reflexivity]. intros _. split; [now right|].
           exists n, p. repeat split; congruence.
      * rewrite bool_decide_eq_false_2 by congruence. simpl.
        split; [discriminate|]. intros ([A|A] & _); congruence.
    + split; [discriminate|]. intros ([A|A] & _); discriminate.
    + try rewrite (bool_decide_eq_true_2 _ eq_refl); simpl.
      destruct (attrs pc !! "container_name") as [[n|]|],
               (attrs pc !! "physical_host") as [[p|]|]; simpl;
        try (split; [discriminate | intros (_ & n' & p' & A & B & _); discriminate]).
      destruct (decide (Some n = Some p)) as [E|E].
      * rewrite (bool_decide_eq_true_2 _ E); simpl.
        split; [discriminate|].
        intros (_ & n' & p' & [= <-] & [= <-] & Hne). congruence.
      * rewrite (bool_decide_eq_false_2 _ E); simpl.
        split; [| reflexivity]. intros _. split; [now left|].
        exists n, p. repeat split; congruence.
  - destruct (attrs pc !! "chroot_path") as [[cp|]|],
             (attrs pc !! "physical_host") as [[p|]|]; simpl;
      try (split; [discriminate | intros (cp' & p' & A & B); discriminate]).
    split; [| reflexivity]. intros _. now exists cp, p.
Qed.

(** A connection constructed without a physical host is confirmed by neither
    check. *)
Lemma constructed_unconfirmed (pc : PlayContext) :
  attr_unset pc "physical_host" ->
  container_confirmed (__init__ pc) = false /\ chroot_confirmed (__init__ pc) = false.
Proof.
  intros U. unfold container_confirmed, chroot_confirmed, __init__; simpl.
  assert (E : match attrs pc !! "physical_host" with Some v => v | None => None end
              = None) by (destruct U as [-> | ->]; reflexivity).
  rewrite E.
  split.
  - destruct (match attrs pc !! "container_name" with Some v => v | None => None end);
      apply andb_false_r.
  - now destruct (match attrs pc !! "chroot_path" with Some v => v | None => None end).
Qed.

(** X11: without a physical host the plugin is the plain SSH plugin.  On a
    connection constructed from a play context whose [physical_host]
    attribute does not exist or is [None], whatever the other attributes
    are, [exec_command] hands the command on unchanged, [fetch_file] and
    [put_file] hand both paths on unchanged, none of them runs a lookup, and
    [set_host_overrides] returns and leaves the connection as constructed. *)
Theorem constructed_without_physical_host (pc : PlayContext) (e : Env)
    (t : list Event) (cmd a b : string) (in_data : option string) (sudoable : bool)
    (host_ : string) (hostvars : option HostVars) :
  attr_unset pc "physical_host" ->
  calls (trace (snd (exec_command cmd in_data sudoable (constructed pc e t))))
  = (calls t ++ [SuperExecCommand cmd in_data sudoable])%list
  /\ calls (trace (snd (fetch_file a b (constructed pc e t))))
     = (calls t ++ [SuperFetchFile a b])%list
  /\ calls (trace (snd (put_file a b (constructed pc e t))))
     = (calls t ++ [SuperPutFile a b])%list
  /\ fst (set_host_overrides host_ hostvars (constructed pc e t)) = Ok tt
  /\ self (snd (set_host_overrides host_ hostvars (constructed pc e t))) = __init__ pc.
Proof.
  intros U. destruct (constructed_unconfirmed pc U) as [Hc Hh].
  split; [|split; [|split]].
  - rewrite exec_command_calls. unfold command_sent. simpl. now rewrite Hc, Hh.
  - destruct (fetch_file_run a b (constructed pc e t)) as (m & S & E).
    rewrite E. simpl self. rewrite Hc. unfold bind, ret, call; simpl.
    destruct (super_fetch_file _ _ _ _); simpl. now calls_norm.
  - destruct (put_file_run a b (constructed pc e t)) as (m & S & E).
    rewrite E. simpl self. rewrite Hc. unfold bind, ret, call; simpl.
    destruct (super_put_file _ _ _ _); simpl. now calls_norm.
  - assert (Hr : container_confirmed (self (constructed pc e t))
                 || chroot_confirmed (self (constructed pc e t)) = false)
      by (simpl; now rewrite Hc, Hh).
    destruct (set_host_overrides_noop_run host_ hostvars _ Hr) as (m & S & E).
    now rewrite E.
Qed.

(** X12: [close] starts a process only for a session that is connected and
    persistent; for any other it does nothing.  For such a session it starts
    one, waits for it, and the process is [ssh -O stop] against the
    connection's current host: on a target that [set_host_overrides] has
    redirected with the host variables [hv], the address [hv] gives for the
    physical host, or the physical host's identifier. *)
Theorem close_stops_dialed_host (host_ : string) (hv : HostVars) (st : St Env)
    (flags : SessionFlags) :
  (_connected flags && _persistent flags = false -> close (self st) flags = [])
  /\ (_connected flags && _persistent flags = true ->
      close (self st) flags
      = [Popen (_build_command (self st) "ssh" [Some "-O"; Some "stop"; host (self st)]);
         Communicate]
      /\ (fst (_container_check st) = Ok true \/ fst (_chroot_check st) = Ok true ->
          exists ph : string,
            physical_host (self st) = Some ph
            /\ let c' := self (snd (set_host_overrides host_ (Some hv) st)) in
               close c' flags
               = [Popen (_build_command c' "ssh"
                           [Some "-O"; Some "stop";
                            Some (match hv !! "physical_host_addrs" with
                                  | Some addrs => default ph (addrs !! ph)
                                  | None => ph
                                  end)]);
                  Communicate])).
Proof.
  unfold close. split; [now intros ->|]. intros ->.
  assert (I : forall l : list string, map to_bytes l = l).
  { induction l as [|x l IH]; [reflexivity|]. simpl. now rewrite IH. }
  rewrite I. split; [reflexivity|].
  rewrite container_check_fst, chroot_check_fst. intros Hr.
  assert (Hb : container_confirmed (self st) || chroot_confirmed (self st) = true).
  { destruct Hr as [[= ->]|[= ->]]; [reflexivity | apply orb_true_r]. }
  destruct (set_host_overrides_run host_ hv st Hb) as (ph & msgs & Hph & _ & E).
  exists ph. split; [exact Hph|]. cbv zeta. rewrite E, I. reflexivity.
Qed.

End Lifecycle.

(** ** More on the padded path *)

Module StripFacts.

Lemma lstrip_by_all (p : ascii -> bool) (ws s : string) :
  all_chars p ws = true -> lstrip_by p (ws ++ s) = lstrip_by p s.
Proof.
  induction ws as [|a ws IH]; [reflexivity|].
  intros Ha. cbn [all_chars] in Ha. apply andb_prop in Ha as [Ha Hws].
  rewrite PyStrFacts.append_cons. cbn [lstrip_by]. rewrite Ha. now apply IH.
Qed.

Lemma lstrip_by_head (p : ascii -> bool) (a : ascii) (s : string) :
  p a = false -> lstrip_by p (String a s) = String a s.
Proof. intros Ha. cbn [lstrip_by]. now rewrite Ha. Qed.

Lemma rstrip_by_all (p : ascii -> bool) (ws : string) :
  all_chars p ws = true -> rstrip_by p ws = "".
Proof.
  induction ws as [|a ws IH]; [reflexivity|].
  simpl. intros Ha. apply andb_prop in Ha as [Ha Hws].
  now rewrite (IH Hws), Ha.
Qed.

Lemma rstrip_by_append (p : ascii -> bool) (s ws : string) :
  all_chars (fun a => negb (p a)) s = true ->
  all_chars p ws = true ->
  rstrip_by p (s ++ ws) = s.
Proof.
  intros Hs Hws. induction s as [|a s IH]; [now apply rstrip_by_all|].
  cbn [all_chars] in Hs. apply andb_prop in Hs as [Ha Hs]. apply negb_true_iff in Ha.
  rewrite PyStrFacts.append_cons. cbn [rstrip_by]. rewrite (IH Hs), Ha.
  now destruct s.
Qed.

(** White space around a word without white space is what [strip] takes
    off. *)
Lemma strip_padded (ws1 word ws2 : string) :
  all_chars is_space ws1 = true ->
  all_chars (fun a => negb (is_space a)) word = true ->
  all_chars is_space ws2 = true ->
  strip (ws1 ++ word ++ ws2) = word.
Proof.
  intros H1 Hw H2. unfold strip. rewrite (lstrip_by_all _ _ _ H1).
  destruct word as [|a word].
  - change ("" ++ ws2) with ws2.
    assert (E : lstrip_by is_space ws2 = "").
    { rewrite <- (PyStrFacts.append_nil_r ws2). now rewrite (lstrip_by_all _ _ _ H2). }
    now rewrite E.
  - pose proof Hw as Hw'. cbn [all_chars] in Hw'.
    apply andb_prop in Hw' as [Ha _]. apply negb_true_iff in Ha.
    rewrite PyStrFacts.append_cons, (lstrip_by_head _ _ _ Ha), <- PyStrFacts.append_cons.
    now apply rstrip_by_append.
Qed.

End StripFacts.

Section MorePathRewriter.

Context {Env : Type} {ssh : SSHConnection Env}.

(** X13: a lookup that exits with status zero and prints nothing, or only
    white space, is not an error: [_container_path_pad] returns the path
    under [/proc//root/], with an empty process id. *)
Theorem container_path_pad_blank_output (path : string) (fake_path : bool)
    (st : St Env) (out err : string) (e' : Env) :
  _run (self st) (pid_lookup_argv (self st)) None false (env st)
  = (Ok (0, out, err), e') ->
  all_chars is_space out = true ->
  fst (_container_path_pad path fake_path st) = Ok ("/proc//root/" ++ lstrip_sep path).
Proof.
  intros R Hout.
  destruct (container_path_pad_found_run path fake_path st out err e' R)
    as (msgs & _ & E).
  rewrite E. simpl.
  assert (S : strip out = "").
  { rewrite <- (StripFacts.strip_padded out "" "" Hout eq_refl eq_refl).
    now rewrite !PyStrFacts.append_nil_r. }
  now rewrite S.
Qed.

(** X14: leading separators of the path make no difference.  A path with
    any number of separators put in front is padded, logged and answered
    exactly as the path itself: an absolute and a relative path reach the same
    file under the container's root. *)
Theorem container_path_pad_leading_separators (seps path : string)
    (fake_path : bool) (st : St Env) :
  all_chars (fun a => Ascii.eqb a sep) seps = true ->
  _container_path_pad (seps ++ path) fake_path st
  = _container_path_pad path fake_path st.
Proof.
  intros Hs.
  unfold _container_path_pad, mbind, M_bind, bind, get_self, call; simpl.
  unfold lstrip_sep. now rewrite (StripFacts.lstrip_by_all _ _ _ Hs).
Qed.

(** X15: the process id is the lookup's output without the white space
    around it.  When the lookup exits with status zero and prints a word
    without white space, with any white space before and after it (the
    newline of the command's output, say), the padded path is
    [/proc/<word>/root/<path>]. *)
Theorem container_path_pad_trims_output (path : string) (fake_path : bool)
    (st : St Env) (ws1 pid ws2 err : string) (e' : Env) :
  _run (self st) (pid_lookup_argv (self st)) None false (env st)
  = (Ok (0, ws1 ++ pid ++ ws2, err), e') ->
  all_chars is_space ws1 = true ->
  all_chars (fun a => negb (is_space a)) pid = true ->
  all_chars is_space ws2 = true ->
  fst (_container_path_pad path fake_path st)
  = Ok ("/proc/" ++ pid ++ "/root/" ++ lstrip_sep path).
Proof.
  intros R H1 Hp H2.
  destruct (container_path_pad_found_run path fake_path st _ err e' R)
    as (msgs & _ & E).
  rewrite E. simpl. now rewrite (StripFacts.strip_padded _ _ _ H1 Hp H2).
Qed.

End MorePathRewriter.

(** ** The plugin on concrete targets *)

Module Examples.

Import Scripted.

(** The command of the specification's example, on container [c1]. *)
Example exec_command_echo_hi :
  calls (trace (snd (exec_command "echo hi" None true (fresh lxc_pc found))))
  = [SuperExecCommand "lxc-attach --clear-env --name c1 -- su - root -c 'echo hi'"
                      None true].
Proof. vm_compute. reflexivity. Qed.

(** The same under the chroot [/srv/root]. *)
Example exec_command_echo_hi_chroot :
  calls (trace (snd (exec_command "echo hi" None true (fresh lxc_chroot_pc found))))
  = [SuperExecCommand
       "chroot /srv/root lxc-attach --clear-env --name c1 -- su - root -c 'echo hi'"
       None true].
Proof. vm_compute. reflexivity. Qed.

(** A command that is already quoted is quoted once more. *)
Example exec_command_quoted :
  calls (trace (snd (exec_command "/bin/sh -c 'echo hi'" None true (fresh lxc_pc found))))
  = [SuperExecCommand
       ("lxc-attach --clear-env --name c1 -- su - root -c "
          ++ "'/bin/sh -c '" ++ dquote ++ "'" ++ dquote ++ "'echo hi'"
          ++ dquote ++ "'" ++ dquote ++ "''")
       None true].
Proof. vm_compute. reflexivity. Qed.

(** Witness of C1: the specification's example. *)
Lemma exec_command_container_witness :
  fst (_container_check (fresh lxc_pc found)) = Ok true
  /\ calls (trace (snd (exec_command "echo hi" None true (fresh lxc_pc found))))
     = [SuperExecCommand
          ("lxc-attach --clear-env --name c1 -- su - root -c " ++ shlex_quote "echo hi")
          None true].
Proof.
  assert (Hc : fst (_container_check (fresh lxc_pc found)) = Ok true)
    by (vm_compute; reflexivity).
  assert (Hr : fst (_chroot_check (fresh lxc_pc found)) = Ok false)
    by (vm_compute; reflexivity).
  split; [exact Hc|].
  destruct (exec_command_container "echo hi" None true (fresh lxc_pc found) Hc)
    as (name & user & Hn & _ & Hroot & Hplain & _).
  vm_compute in Hn. injection Hn as <-.
  rewrite (Hroot (or_introl eq_refl)) in Hplain.
  exact (Hplain Hr).
Defined.

(** Counterexample to C1 as stated: on a container target that is a chroot
    target too, the command is not the bare [lxc-attach] command. *)
Lemma exec_command_container_counterexample :
  fst (_container_check (fresh lxc_chroot_pc found)) = Ok true
  /\ calls (trace (snd (exec_command "echo hi" None true (fresh lxc_chroot_pc found))))
     <> [SuperExecCommand
           ("lxc-attach --clear-env --name c1 -- su - root -c " ++ shlex_quote "echo hi")
           None true].
Proof.
  split; [vm_compute; reflexivity|].
  rewrite exec_command_echo_hi_chroot. intros E. discriminate E.
Qed.

(** Witness of C5: the chroot [/srv/root] around the container [c1]. *)
Lemma exec_command_chroot_witness :
  fst (_chroot_check (fresh lxc_chroot_pc found)) = Ok true
  /\ calls (trace (snd (exec_command "echo hi" None true (fresh lxc_chroot_pc found))))
     = [SuperExecCommand
          ("chroot /srv/root "
             ++ ("lxc-attach --clear-env --name c1 -- su - root -c "
                   ++ shlex_quote "echo hi"))
          None true].
Proof.
  assert (Hr : fst (_chroot_check (fresh lxc_chroot_pc found)) = Ok true)
    by (vm_compute; reflexivity).
  assert (Hc : fst (_container_check (fresh lxc_chroot_pc found)) = Ok true)
    by (vm_compute; reflexivity).
  split; [exact Hr|].
  destruct (exec_command_chroot "echo hi" None true (fresh lxc_chroot_pc found) Hr)
    as (p & Hp & _ & Hwrapped).
  vm_compute in Hp. injection Hp as <-.
  destruct (Hwrapped Hc) as (name & Hn & E).
  vm_compute in Hn. injection Hn as <-.
  exact E.
Defined.

(** Witness of C9: a plain host. *)
Lemma exec_command_identity_witness :
  fst (_container_check (fresh plain_pc found)) = Ok false
  /\ fst (_chroot_check (fresh plain_pc found)) = Ok false
  /\ calls (trace (snd (exec_command "echo hi" None true (fresh plain_pc found))))
     = [SuperExecCommand "echo hi" None true].
Proof.
  assert (Hc : fst (_container_check (fresh plain_pc found)) = Ok false)
    by (vm_compute; reflexivity).
  assert (Hr : fst (_chroot_check (fresh plain_pc found)) = Ok false)
    by (vm_compute; reflexivity).
  split; [exact Hc|]. split; [exact Hr|].
  exact (proj1 (exec_command_identity "echo hi" None true (fresh plain_pc found) Hc Hr)).
Defined.

(** Witness of C2: the specification's example. *)
Lemma container_path_pad_found_witness :
  fst (_container_path_pad "/etc/hosts" false (fresh lxc_pc found))
  = Ok "/proc/1234/root/etc/hosts".
Proof.
  exact (container_path_pad_found "/etc/hosts" false (fresh lxc_pc found)
           ("1234" ++ nl) "" found eq_refl).
Defined.

(** Witness of C3: the lookup exits with status 1. *)
Lemma container_path_pad_not_found_witness :
  exists msg : string,
    fst (fetch_file "/etc/hosts" "/tmp/hosts" (fresh lxc_pc not_found))
    = Raise (AnsibleError msg)
    /\ contains "c1" msg
    /\ calls (trace (snd (fetch_file "/etc/hosts" "/tmp/hosts" (fresh lxc_pc not_found))))
       = [Run ["ssh"; "c1"; "lxc-info --name c1 --pid | awk '/PID:/ {print $2}'"]
              None false].
Proof.
  assert (Hc : fst (_container_check (fresh lxc_pc not_found)) = Ok true)
    by (vm_compute; reflexivity).
  assert (Hrc : 1 <> 0) by discriminate.
  destruct (container_path_pad_not_found (ssh := transport)
              "/etc/hosts" "/etc/hosts" "/tmp/hosts" false
              (fresh lxc_pc not_found) 1 "" "" not_found eq_refl Hrc)
    as (msg & _ & Hname & _ & Hfetch).
  destruct (Hfetch Hc) as (Hraise & Hcalls & _).
  exists msg. split; [exact Hraise|]. split; [|exact Hcalls].
  apply Hname. vm_compute. reflexivity.
Defined.

(** Witness of C10: fetching from and putting into the container [c1]. *)
Lemma transfer_pads_remote_path_only_witness :
  calls (trace (snd (fetch_file "/etc/hosts" "/tmp/hosts" (fresh lxc_pc found))))
  = [Run ["ssh"; "c1"; "lxc-info --name c1 --pid | awk '/PID:/ {print $2}'"] None false;
     SuperFetchFile "/proc/1234/root/etc/hosts" "/tmp/hosts"]
  /\ calls (trace (snd (put_file "/tmp/hosts" "/etc/hosts" (fresh lxc_pc found))))
     = [Run ["ssh"; "c1"; "lxc-info --name c1 --pid | awk '/PID:/ {print $2}'"] None false;
        SuperPutFile "/tmp/hosts" "/proc/1234/root/etc/hosts"]
  /\ calls (trace (snd (fetch_file "/etc/hosts" "/tmp/hosts" (fresh chroot_pc found))))
     = [SuperFetchFile "/etc/hosts" "/tmp/hosts"]
  /\ calls (trace (snd (put_file "/tmp/hosts" "/etc/hosts" (fresh chroot_pc found))))
     = [SuperPutFile "/tmp/hosts" "/etc/hosts"].
Proof.
  assert (Hc : fst (_container_check (fresh lxc_pc found)) = Ok true)
    by (vm_compute; reflexivity).
  assert (Hn : fst (_container_check (fresh chroot_pc found)) = Ok false)
    by (vm_compute; reflexivity).
  split; [|split; [|split]].
  - exact (proj1 (proj1 (transfer_pads_remote_path_only "/etc/hosts" "/tmp/hosts"
                           (fresh lxc_pc found)) Hc ("1234" ++ nl) "" found eq_refl)).
  - exact (proj2 (proj1 (transfer_pads_remote_path_only "/tmp/hosts" "/etc/hosts"
                           (fresh lxc_pc found)) Hc ("1234" ++ nl) "" found eq_refl)).
  - exact (proj1 (proj2 (transfer_pads_remote_path_only "/etc/hosts" "/tmp/hosts"
                           (fresh chroot_pc found)) Hn)).
  - exact (proj2 (proj2 (transfer_pads_remote_path_only "/tmp/hosts" "/etc/hosts"
                           (fresh chroot_pc found)) Hn)).
Defined.

(** Witness of C6: host variables that know the address of [h1], and host
    variables that do not. *)
Lemma set_host_overrides_redirects_witness :
  (fst (_container_check (fresh lxc_pc found)) = Ok true
   \/ fst (_chroot_check (fresh lxc_pc found)) = Ok true)
  /\ host (self (snd (set_host_overrides "c1" (Some addrs_hv) (fresh lxc_pc found))))
     = Some "10.0.0.1"
  /\ host (self (snd (set_host_overrides "c1" (Some empty_hv) (fresh lxc_pc found))))
     = Some "h1".
Proof.
  assert (Hc : fst (_container_check (fresh lxc_pc found)) = Ok true
               \/ fst (_chroot_check (fresh lxc_pc found)) = Ok true)
    by (left; vm_compute; reflexivity).
  split; [exact Hc|]. split.
  - destruct (set_host_overrides_redirects "c1" addrs_hv (fresh lxc_pc found) Hc)
      as (ph & addr & Hph & Haddr & _ & Hhost & _).
    vm_compute in Hph. injection Hph as <-.
    vm_compute in Haddr. rewrite Haddr in Hhost. exact Hhost.
  - destruct (set_host_overrides_redirects "c1" empty_hv (fresh lxc_pc found) Hc)
      as (ph & addr & Hph & Haddr & _ & Hhost & _).
    vm_compute in Hph. injection Hph as <-.
    vm_compute in Haddr. rewrite Haddr in Hhost. exact Hhost.
Defined.

(** Witness of C7: after [set_host_overrides] with host variables that give
    [h1] the address [10.0.0.1], the lookup for container [c1] is run against
    [10.0.0.1]. *)
Lemma container_path_pad_dials_host_witness :
  fst (_container_check (fresh lxc_pc found)) = Ok true
  /\ calls (trace (snd (_container_path_pad "/etc/hosts" false
                          (snd (set_host_overrides "c1" (Some addrs_hv)
                                  (fresh lxc_pc found))))))
     = [Run ["ssh"; "10.0.0.1"; "lxc-info --name c1 --pid | awk '/PID:/ {print $2}'"]
            None false].
Proof.
  assert (Hc : fst (_container_check (fresh lxc_pc found)) = Ok true)
    by (vm_compute; reflexivity).
  split; [exact Hc|].
  destruct (proj2 (container_path_pad_dials_host "/etc/hosts" false (fresh lxc_pc found))
              "c1" addrs_hv Hc)
    as (ph & name & Hph & Hn & E).
  vm_compute in Hph. injection Hph as <-.
  vm_compute in Hn. injection Hn as <-.
  rewrite E. vm_compute. reflexivity.
Defined.

(** Counterexample to C7 as stated: on a connection that was not redirected
    the lookup for container [c1] is run against the connection's own host,
    [c1], though the host variables give the physical host [h1] the address
    [10.0.0.1]. *)
Lemma container_path_pad_counterexample :
  fst (_container_check (fresh lxc_pc found)) = Ok true
  /\ physical_host (self (fresh lxc_pc found)) = Some "h1"
  /\ (addrs_hv !! "physical_host_addrs") ≫= lookup "h1" = Some "10.0.0.1"
  /\ calls (trace (snd (_container_path_pad "/etc/hosts" false (fresh lxc_pc found))))
     = [Run ["ssh"; "c1"; "lxc-info --name c1 --pid | awk '/PID:/ {print $2}'"]
            None false]
  /\ calls (trace (snd (_container_path_pad "/etc/hosts" false (fresh lxc_pc found))))
     <> [Run ["ssh"; "10.0.0.1"; "lxc-info --name c1 --pid | awk '/PID:/ {print $2}'"]
             None false].
Proof.
  repeat split; try (vm_compute; reflexivity).
  vm_compute. intros E. discriminate E.
Qed.

(** Two transfers around a restart of the container: each uses the PID its
    own lookup found. *)
Example transfers_around_restart :
  calls (trace (snd (put_file "/tmp/hosts" "/etc/hosts"
                       (snd (fetch_file "/etc/hosts" "/tmp/hosts"
                               (Replay.fresh Replay.lxc_pc Replay.restarted))))))
  = [Run ["ssh"; "c1"; "lxc-info --name c1 --pid | awk '/PID:/ {print $2}'"] None false;
     SuperFetchFile "/proc/1234/root/etc/hosts" "/tmp/hosts";
     Run ["ssh"; "c1"; "lxc-info --name c1 --pid | awk '/PID:/ {print $2}'"] None false;
     SuperPutFile "/tmp/hosts" "/proc/5678/root/etc/hosts"].
Proof. vm_compute. reflexivity. Qed.

(** With a remote user, the login shell in the container is that user's. *)
Example exec_command_as_deploy :
  calls (trace (snd (exec_command "echo hi" None true
                       (Replay.fresh Replay.lxc_pc Replay.restarted))))
  = [SuperExecCommand "lxc-attach --clear-env --name c1 -- su - deploy -c 'echo hi'"
                      None true].
Proof. vm_compute. reflexivity. Qed.

(** Witness of X4: the host cannot be reached. *)
Lemma lookup_error_propagates_witness :
  fst (fetch_file "/etc/hosts" "/tmp/hosts" (Replay.fresh Replay.lxc_pc Replay.unreachable))
  = Raise (TransportError "ssh: connect to host failed")
  /\ calls (trace (snd (fetch_file "/etc/hosts" "/tmp/hosts"
                          (Replay.fresh Replay.lxc_pc Replay.unreachable))))
     = [Run ["ssh"; "c1"; "lxc-info --name c1 --pid | awk '/PID:/ {print $2}'"]
            None false].
Proof.
  assert (Hc : fst (_container_check (Replay.fresh Replay.lxc_pc Replay.unreachable))
               = Ok true)
    by (vm_compute; reflexivity).
  destruct (lookup_error_propagates (ssh := Replay.transport)
              "/etc/hosts" "/etc/hosts" "/tmp/hosts" false
              (Replay.fresh Replay.lxc_pc Replay.unreachable)
              (TransportError "ssh: connect to host failed") [] eq_refl)
    as [_ H].
  destruct (H Hc) as (A & B & _).
  split; [exact A | exact B].
Defined.

(** Witness of X5: a fetch and a put on the container [c1]. *)
Lemma every_transfer_looks_up_witness :
  lookups (trace (snd (put_file "/tmp/hosts" "/etc/hosts"
                         (snd (fetch_file "/etc/hosts" "/tmp/hosts"
                                 (Replay.fresh Replay.lxc_pc Replay.restarted))))))
  = [Run ["ssh"; "c1"; "lxc-info --name c1 --pid | awk '/PID:/ {print $2}'"] None false;
     Run ["ssh"; "c1"; "lxc-info --name c1 --pid | awk '/PID:/ {print $2}'"] None false].
Proof.
  assert (Hc : fst (_container_check (Replay.fresh Replay.lxc_pc Replay.restarted))
               = Ok true)
    by (vm_compute; reflexivity).
  exact (every_transfer_looks_up "/etc/hosts" "/tmp/hosts" "/tmp/hosts" "/etc/hosts"
           (Replay.fresh Replay.lxc_pc Replay.restarted) Hc).
Defined.

(** Witness of X6: a plain host, and no host variables. *)
Lemma set_host_overrides_leaves_plain_target_witness :
  fst (set_host_overrides "h1" None (fresh plain_pc found)) = Ok tt
  /\ host (self (snd (set_host_overrides "h1" None (fresh plain_pc found)))) = Some "h1".
Proof.
  assert (Hc : fst (_container_check (fresh plain_pc found)) = Ok false)
    by (vm_compute; reflexivity).
  assert (Hr : fst (_chroot_check (fresh plain_pc found)) = Ok false)
    by (vm_compute; reflexivity).
  destruct (set_host_overrides_leaves_plain_target "h1" None (fresh plain_pc found) Hc Hr)
    as (A & B & _).
  split; [exact A|]. rewrite B. vm_compute. reflexivity.
Defined.

(** Witness of X7: the container [c1], and no host variables. *)
Lemma set_host_overrides_needs_hostvars_witness :
  (exists msg, fst (set_host_overrides "c1" None (fresh lxc_pc found))
               = Raise (AttributeError msg))
  /\ host (self (snd (set_host_overrides "c1" None (fresh lxc_pc found)))) = Some "c1".
Proof.
  assert (Hc : fst (_container_check (fresh lxc_pc found)) = Ok true
               \/ fst (_chroot_check (fresh lxc_pc found)) = Ok true)
    by (left; vm_compute; reflexivity).
  destruct (set_host_overrides_needs_hostvars "c1" (fresh lxc_pc found) Hc) as (A & B).
  split; [exact A|]. rewrite B. vm_compute. reflexivity.
Defined.

(** Witness of X9: host variables that say nothing, then host variables that
    know [h1]. *)
Lemma set_host_overrides_last_wins_witness :
  host (self (snd (set_host_overrides "c1" (Some addrs_hv)
                     (snd (set_host_overrides "c1" (Some empty_hv)
                             (fresh lxc_pc found))))))
  = Some "10.0.0.1".
Proof.
  assert (Hc : fst (_container_check (fresh lxc_pc found)) = Ok true
               \/ fst (_chroot_check (fresh lxc_pc found)) = Ok true)
    by (left; vm_compute; reflexivity).
  rewrite (set_host_overrides_last_wins "c1" "c1" empty_hv addrs_hv
             (fresh lxc_pc found) Hc).
  vm_compute. reflexivity.
Defined.

(** Witness of X10: the container [c1] on [h1], with no container type
    given. *)
Lemma constructed_targets_witness :
  fst (_container_check (constructed Replay.lxc_pc Replay.silent [])) = Ok true.
Proof.
  apply (proj2 (proj1 (constructed_targets (ssh := Replay.transport)
                         Replay.lxc_pc Replay.silent []))).
  split; [left; vm_compute; reflexivity|].
  exists "c1", "h1".
  split; [vm_compute; reflexivity|]. split; [vm_compute; reflexivity|].
  discriminate.
Defined.

(** Witness of X11: a container name and a chroot path without a physical
    host. *)
Lemma constructed_without_physical_host_witness :
  attr_unset Replay.orphan_pc "physical_host"
  /\ calls (trace (snd (exec_command "echo hi" None true
                          (constructed Replay.orphan_pc Replay.silent []))))
     = [SuperExecCommand "echo hi" None true]
  /\ calls (trace (snd (fetch_file "/etc/hosts" "/tmp/hosts"
                          (constructed Replay.orphan_pc Replay.silent []))))
     = [SuperFetchFile "/etc/hosts" "/tmp/hosts"].
Proof.
  assert (U : attr_unset Replay.orphan_pc "physical_host")
    by (left; vm_compute; reflexivity).
  destruct (constructed_without_physical_host (ssh := Replay.transport)
              Replay.orphan_pc Replay.silent [] "echo hi" "/etc/hosts" "/tmp/hosts"
              None true "c1" None U)
    as (A & B & _).
  split; [exact U|]. split; [exact A | exact B].
Defined.

(** Witness of X12: closing the persistent session of the redirected
    container [c1]. *)
Lemma close_stops_dialed_host_witness :
  close (self (snd (set_host_overrides "c1" (Some addrs_hv) (fresh lxc_pc found))))
        persistent_session
  = [Popen ["ssh"; "-O"; "stop"; "10.0.0.1"]; Communicate].
Proof.
  assert (Hc : fst (_container_check (fresh lxc_pc found)) = Ok true
               \/ fst (_chroot_check (fresh lxc_pc found)) = Ok true)
    by (left; vm_compute; reflexivity).
  destruct (proj2 (close_stops_dialed_host "c1" addrs_hv (fresh lxc_pc found)
                     persistent_session) eq_refl)
    as (_ & H).
  destruct (H Hc) as (ph & Hph & E).
  vm_compute in Hph. injection Hph as <-.
  exact E.
Defined.

(** Witness of X13: the lookup prints an empty line. *)
Lemma container_path_pad_blank_output_witness :
  fst (_container_path_pad "/etc/hosts" false (Replay.fresh Replay.lxc_pc Replay.silent))
  = Ok "/proc//root/etc/hosts".
Proof.
  exact (container_path_pad_blank_output (ssh := Replay.transport)
           "/etc/hosts" false (Replay.fresh Replay.lxc_pc Replay.silent)
           nl "" [] eq_refl eq_refl).
Defined.

(** Witness of X14: two separators before a relative path. *)
Lemma container_path_pad_leading_separators_witness :
  _container_path_pad "//etc/hosts" false (fresh lxc_pc found)
  = _container_path_pad "etc/hosts" false (fresh lxc_pc found).
Proof.
  exact (container_path_pad_leading_separators "//" "etc/hosts" false
           (fresh lxc_pc found) eq_refl).
Defined.

(** Witness of X15: the lookup prints [1234] and a newline. *)
Lemma container_path_pad_trims_output_witness :
  fst (_container_path_pad "/etc/hosts" false (fresh lxc_pc found))
  = Ok "/proc/1234/root/etc/hosts".
Proof.
  exact (container_path_pad_trims_output (ssh := transport)
           "/etc/hosts" false (fresh lxc_pc found) "" "1234" nl "" found
           eq_refl eq_refl eq_refl eq_refl).
Defined.

End Examples.
